(** * TSLA -> BTC regime edge: the daily regime engine and the live signal

    A shallow embedding of [src/app.py]: the rolling Granger-causality
    regime classifier [_get_daily_regime] and the live signal generator
    [get_live_signal], with the properties of the specification stated
    and proved (or refuted) over the embedding.

    Modelling choices, all following the source:
    - a Python/NumPy float is an IEEE-754 binary64 value, taken from the
      Standard Library's executable specification [SpecFloat] at precision
      53 and maximal exponent 1024 (NaN, infinities and signed zeros
      included);
    - an exception is an explicit [Raise] outcome; a bare [except:] is
      [try_except], which catches every exception;
    - the data provider ([yf.download]) is a record of the three answers
      the program asks for; the statistical test of statsmodels
      ([grangercausalitytests]) and the logarithm of positive finite
      numbers are section variables: the program is verified for every
      behaviour of these collaborators;
    - the module-level dictionary [cache] is threaded explicitly. *)

From Stdlib Require Import ZArith QArith Bool List Lia.
From Stdlib Require Import Floats.SpecFloat.
From stdpp Require Import base option list strings gmap sorting.

Local Open Scope Z_scope.

(** ** binary64 arithmetic *)

Module F64.

Definition prec : Z := 53.
Definition emax : Z := 1024.

Definition t : Type := spec_float.

Definition nan : t := S754_nan.
Definition inf : t := S754_infinity false.
Definition neg_inf : t := S754_infinity true.

Definition mul : t -> t -> t := SFmul prec emax.
Definition div : t -> t -> t := SFdiv prec emax.
Definition sub : t -> t -> t := SFsub prec emax.
Definition neg : t -> t := SFopp.

(** Python's [a < b] and [a > b] on floats: false as soon as one side
    is NaN. *)
Definition lt (a b : t) : bool := SFltb a b.
Definition gt (a b : t) : bool := SFltb b a.
Definition le (a b : t) : bool := SFleb a b.

Definition is_nan (x : t) : bool :=
  match x with S754_nan => true | _ => false end.

Definition valid (x : t) : bool := valid_binary prec emax x.

(** The float of an integer, and the correctly rounded quotient of two
    integers.  A decimal literal [n / 10^k] whose numerator and
    denominator are below [2^53] denotes exactly [of_ratio n (10^k)]. *)
Definition of_Z (n : Z) : t := binary_normalize prec emax n 0 false.
Definition of_ratio (n d : Z) : t := div (of_Z n) (of_Z d).

(** The rational value of a finite float (0 for the others). *)
Definition to_Q (x : t) : Q :=
  match x with
  | S754_finite s m (Zneg p) => Qmake (cond_Zopp s (Zpos m)) (2 ^ p)
  | S754_finite s m e => inject_Z (cond_Zopp s (Zpos m) * 2 ^ e)
  | _ => 0%Q
  end.

Definition is_finite (x : t) : bool :=
  match x with
  | S754_finite _ _ _ | S754_zero _ => true
  | _ => false
  end.

(** Round half to even of [m / 2^k], for [k > 0]. *)
Definition rne_shift (m k : Z) : Z :=
  let q := m / 2 ^ k in
  let r := m mod 2 ^ k in
  match 2 * r ?= 2 ^ k with
  | Lt => q
  | Gt => q + 1
  | Eq => if Z.even q then q else q + 1
  end.

(** [numpy.rint]: the nearest integer, ties to even, as a float; the
    sign of the argument is kept (also on a zero result). *)
Definition rint (x : t) : t :=
  match x with
  | S754_finite s m (Zneg p) =>
      binary_normalize prec emax
        (cond_Zopp s (rne_shift (Zpos m) (Zpos p))) 0 s
  | _ => x
  end.

(** The literals of the program. *)
Definition zero : t := S754_zero false.                 (* 0.0 *)
Definition one : t := Eval vm_compute in of_Z 1.         (* 1.0, 1.00000 *)
Definition c_0_0015 : t := Eval vm_compute in of_ratio 15 10000.   (* 0.0015 *)
Definition c_0_10 : t := Eval vm_compute in of_ratio 10 100.       (* 0.10 *)
Definition c_1e5 : t := Eval vm_compute in of_Z 100000.  (* 10 ** 5 *)

End F64.

Abbreviation float64 := F64.t.

(** ** Python outcomes: a value or a raised exception *)

Inductive exception : Type :=
  | KeyError
  | IndexError
  | ValueError (msg : string)
  | ProviderError (msg : string)      (* raised inside yfinance or pandas *)
  | NumericalError (msg : string).    (* raised inside statsmodels *)

Inductive outcome (A : Type) : Type :=
  | Ok (a : A)
  | Raise (e : exception).
Arguments Ok {A} a.
Arguments Raise {A} e.

#[global] Instance outcome_ret : MRet outcome := fun _ a => Ok a.
#[global] Instance outcome_bind : MBind outcome :=
  fun _ _ f c => match c with Ok a => f a | Raise e => Raise e end.

(** [try: c  except: h]: the handler runs on every exception. *)
Definition try_except {A} (c : outcome A) (h : outcome A) : outcome A :=
  match c with
  | Ok a => Ok a
  | Raise _ => h
  end.

Definition raised {A} (c : outcome A) : bool :=
  match c with Ok _ => false | Raise _ => true end.

(** [d[k]] on a dict, [t[i]] on a tuple or list, [s.iloc[-1]]. *)
Definition dict_get `{Countable K} {V} (d : gmap K V) (k : K) : outcome V :=
  match d !! k with Some v => Ok v | None => Raise KeyError end.

Definition item {A} (l : list A) (i : nat) : outcome A :=
  match l !! i with Some v => Ok v | None => Raise IndexError end.

Definition iloc_last {A} (l : list A) : outcome A :=
  match last l with Some v => Ok v | None => Raise IndexError end.

(** [pd.Series(data, index=index)]: the lengths must agree. *)
Definition pd_Series {A I} (data : list A) (index : list I)
  : outcome (list (I * A)) :=
  if (length data =? length index)%nat then Ok (zip index data)
  else Raise (ValueError "Length of values does not match length of index").

(** [l[a:b]] for [0 <= a] and [0 <= b]. *)
Definition iloc_slice {A} (l : list A) (a b : nat) : list A :=
  drop a (take b l).

(** ** Price tables *)

(** A row of the two-column frame of closing prices: the index entry and
    the columns in the provider's order (BTC-USD, TSLA). A missing
    observation is a NaN cell. *)
Record row : Type := Row { date : Z; btc : float64; tsla : float64 }.

Abbreviation frame := (list row).

(** The three requests of the program to the data provider, each with its
    answer: a two-column frame of closes, or an exception. An answer that
    does not have the two columns makes the next statement of the source
    raise ([KeyError] on ['Close'], [ValueError] on the assignment of the
    column names), inside the same [try]: it is a [Raise] here. *)
Record provider : Type := Provider {
  daily_closes : outcome frame;         (* start="2024-01-01" *)
  intraday_closes : outcome frame;      (* period="5d", interval="5m" *)
  recent_daily_closes : outcome frame   (* period="2d" *)
}.

Definition row_has_nan (r : row) : bool :=
  F64.is_nan (btc r) || F64.is_nan (tsla r).

(** [df.dropna()]: rows with a NaN cell are removed. *)
Definition dropna (f : frame) : frame :=
  filter (fun r => row_has_nan r = false) f.

(** [df.shift(1)]: every value moves one row down, the first row is NaN. *)
Definition shift1 (f : frame) : frame :=
  match f with
  | [] => []
  | r :: rest =>
      Row (date r) F64.nan F64.nan
        :: zip_with (fun prev cur => Row (date cur) (btc prev) (tsla prev))
             f rest
  end.

(** [a / b] on two frames with the same index. *)
Definition frame_div (a b : frame) : frame :=
  zip_with (fun x y => Row (date x) (F64.div (btc x) (btc y))
                                    (F64.div (tsla x) (tsla y))) a b.

(** [subset.values]: the rows as pairs of numbers. *)
Definition values (f : frame) : list (float64 * float64) :=
  map (fun r => (btc r, tsla r)) f.

(** ** The result of [grangercausalitytests] *)

(** For each lag, a pair: the dict of the four tests (each a tuple of
    numbers, the p-value at position 1) and the fitted models. *)
Record ols_fit : Type := OlsFit { params : list float64 }.

Abbreviation lag_result := (gmap string (list float64) * list ols_fit)%type.

(** ** The signal returned to the dashboard *)

Record signal_dict : Type := SignalDict {
  signal : string;
  color : string;
  reason : string;
  regime : string;
  p_value : float64;
  tsla_change : float64;
  btc_price : float64;
  tsla_price : float64;
  timestamp : string
}.

(** The module-level [cache = {"last_update": None}]. *)
Record cache_t : Type := Cache { last_update : option string }.

(** Lines 81-96: the decision table, as (signal, color, reason). *)
Definition signal_logic (regime_active : bool) (change : float64)
  : string * string * string :=
  if negb regime_active then
    ("FLAT", "#888888", "Regime inactive")
  else if F64.gt change F64.c_0_0015 then
    ("LONG BTC", "#00ff41", "TSLA strongly up")
  else if F64.lt change (F64.neg F64.c_0_0015) then
    ("SHORT BTC", "#ff4444", "TSLA strongly down")
  else
    ("FLAT", "#888888", "TSLA movement below threshold").

(** [round(latest_p, 5)]. [latest_p] is a [numpy.float64], whose
    [__round__] is NumPy's rounding: multiply by [10**5], round to the
    nearest integer ([rint]), divide by [10**5]. *)
Definition np_round5 (x : float64) : float64 :=
  F64.div (F64.rint (F64.mul x F64.c_1e5)) F64.c_1e5.

Section Program.

(** [numpy.log] on a positive finite double (the C library's [log]). *)
Variable libm_log : float64 -> float64.

(** [grangercausalitytests(x, maxlag, verbose=False)]: the dict of the
    per-lag results, or an exception. *)
Variable grangercausalitytests :
  list (float64 * float64) -> Z -> outcome (gmap Z lag_result).

(** [numpy.log]: NaN on a negative number, minus infinity on a zero. *)
Definition np_log (x : float64) : float64 :=
  match x with
  | S754_nan => F64.nan
  | S754_zero _ => F64.neg_inf
  | S754_infinity false => F64.inf
  | S754_infinity true => F64.nan
  | S754_finite true _ _ => F64.nan
  | S754_finite false _ _ => libm_log x
  end.

Definition frame_log (f : frame) : frame :=
  map (fun r => Row (date r) (np_log (btc r)) (np_log (tsla r))) f.

(** Line 31: [np.log(daily / daily.shift(1)).dropna()]. *)
Definition log_returns (daily : frame) : frame :=
  dropna (frame_log (frame_div daily (shift1 daily))).

(** Lines 38-42: the score of one window. *)
Definition window_score (subset : frame) : float64 :=
  match
    res ← grangercausalitytests (values subset) 2;
    lag2 ← dict_get res 2;
    ftest ← dict_get (fst lag2) "ssr_ftest";
    item ftest 1
  with
  | Ok p => p              (* pvals.append(res[2][0]['ssr_ftest'][1]) *)
  | Raise _ => F64.one     (* except: pvals.append(1.0) *)
  end.

(** Line 37: [returns.iloc[i-90:i]]. *)
Definition window (returns : frame) (i : nat) : frame :=
  iloc_slice returns (i - 90) i.

(** Lines 37-43: one turn of the loop on the state [(pvals, dates)]. *)
Definition scan_step (returns : frame) (st : list float64 * list Z) (i : nat)
  : outcome (list float64 * list Z) :=
  let '(pvals, dates) := st in
  let subset := window returns i in
  let pvals := pvals ++ [window_score subset] in
  r ← item returns i;
  mret (pvals, dates ++ [date r]).

Fixpoint for_each {St} (body : St -> nat -> outcome St) (st : St)
    (range : list nat) : outcome St :=
  match range with
  | [] => Ok st
  | i :: rest => st' ← body st i; for_each body st' rest
  end.

(** Lines 34-43: [for i in range(90, len(returns))]. *)
Definition rolling_scan (returns : frame) : outcome (list float64 * list Z) :=
  for_each (scan_step returns) ([], []) (seq 90 (length returns - 90)).

(** Lines 28-50. *)
Definition _get_daily_regime (p : provider) : outcome (bool * float64) :=
  try_except
    (daily ← daily_closes p;
     let returns := log_returns daily in
     '(pvals, dates) ← rolling_scan returns;
     rolling_p ← pd_Series pvals dates;
     latest ← iloc_last rolling_p;
     let latest_p := snd latest in
     let regime_active := F64.lt latest_p F64.c_0_10 in
     mret (regime_active, np_round5 latest_p))
    (Ok (false, F64.one)).

(** Lines 57-78: the prices and the change, from the 5-minute bars or
    from the daily closes. *)
Definition intraday_snapshot (p : provider)
  : outcome (float64 * float64 * float64) :=
  close ← intraday_closes p;
  let close := dropna close in
  if (length close <? 2)%nat then Raise (ValueError "Not enough data")
  else
    now_ ← item (reverse close) 0;
    prev ← item (reverse close) 1;
    let tsla_now := tsla now_ in
    let tsla_prev := tsla prev in
    let change := F64.sub (F64.div tsla_now tsla_prev) F64.one in
    mret (btc now_, tsla_now, change).

Definition daily_fallback (p : provider)
  : outcome (float64 * float64 * float64) :=
  daily ← recent_daily_closes p;
  b ← iloc_last daily;
  t ← iloc_last daily;
  mret (btc b, tsla t, F64.zero).

(** Lines 57-78: [try: ... except: ...]. *)
Definition price_snapshot (p : provider)
  : outcome (float64 * float64 * float64) :=
  try_except (intraday_snapshot p) (daily_fallback p).

(** Lines 53-110. [now] is [datetime.utcnow()] formatted; the result is
    the dict and the cache after the call. *)
Definition get_live_signal (p : provider) (now : string) (cache : cache_t)
  : outcome (signal_dict * cache_t) :=
  '(regime_active, p_value) ← _get_daily_regime p;
  '(btc_price, tsla_price, change) ← price_snapshot p;
  let '(signal, color, reason) := signal_logic regime_active change in
  let cache := Cache (Some now) in
  mret (SignalDict signal color reason
          (if regime_active then "ACTIVE" else "INACTIVE")
          p_value change btc_price tsla_price now,
        cache).

(** The most recent rolling score, when there is one. *)
Definition latest_score (p : provider) : option float64 :=
  match daily_closes p with
  | Ok daily =>
      match rolling_scan (log_returns daily) with
      | Ok (pvals, _) => last pvals
      | Raise _ => None
      end
  | Raise _ => None
  end.

(** No rolling score can be produced: the daily request failed, or the
    return series has fewer than 91 rows. *)
Definition regime_uncomputable (p : provider) : bool :=
  match daily_closes p with
  | Raise _ => true
  | Ok daily => (length (log_returns daily) <? 91)%nat
  end.

End Program.

(** The 5-minute bars cannot be used: the request failed, or fewer than
    two rows are left once the incomplete ones are dropped. *)
Definition intraday_unavailable (p : provider) : bool :=
  match intraday_closes p with
  | Raise _ => true
  | Ok close => (length (dropna close) <? 2)%nat
  end.

(** A score between 0 and 1. *)
Definition in_unit (x : float64) : bool :=
  F64.le F64.zero x && F64.le x F64.one.

(** The lag-2 F-test p-value of a test result, if it has one. *)
Definition lag2_pvalue (res : gmap Z lag_result) : option float64 :=
  lag2 ← res !! 2; ftest ← fst lag2 !! "ssr_ftest"; ftest !! 1%nat.

(** The lag-2 p-values of a test are probabilities. *)
Definition pvalues_in_unit
    (test : list (float64 * float64) -> Z -> outcome (gmap Z lag_result))
  : Prop :=
  forall w res p,
    test w 2 = Ok res -> lag2_pvalue res = Some p -> in_unit p = true.

(** A price that is zero or negative. *)
Definition nonpositive (x : float64) : bool := F64.le x F64.zero.

(** ** Test doubles and sample data

    Concrete collaborators on which the program can be run: a stand-in
    for the logarithm, Granger tests with a prescribed answer, and small
    price frames. *)

Module Sample.

(** A stand-in for the logarithm of a positive finite number. *)
Definition log_double (x : float64) : float64 := F64.sub x F64.one.

(** The dict of the four tests of one lag, with the F-test p-value [p]. *)
Definition tests_of (p : float64) : gmap string (list float64) :=
  {[ "ssr_ftest" := [F64.of_Z 3; p; F64.of_Z 85; F64.of_Z 2];
     "ssr_chi2test" := [F64.of_Z 6; p; F64.of_Z 2];
     "lrtest" := [F64.of_Z 6; p; F64.of_Z 2];
     "params_ftest" := [F64.of_Z 3; p; F64.of_Z 85; F64.of_Z 2] ]}.

(** The result of a test whose lag-1 p-value is [p1] and whose lag-2
    p-value is [p2]. *)
Definition result_of (p1 p2 : float64) : gmap Z lag_result :=
  {[ 1 := (tests_of p1, []); 2 := (tests_of p2, []) ]}.

(** A test that always succeeds with the same p-values. *)
Definition granger_const (p1 p2 : float64)
  : list (float64 * float64) -> Z -> outcome (gmap Z lag_result) :=
  fun _ _ => Ok (result_of p1 p2).

(** A test that raises on the windows that start with the observation
    [x0] and succeeds on the others. *)
Definition granger_failing_at (x0 : float64) (p1 p2 : float64)
  : list (float64 * float64) -> Z -> outcome (gmap Z lag_result) :=
  fun w _ =>
    match w with
    | (b, _) :: _ =>
        if SFeqb b x0 then Raise (NumericalError "Singular matrix")
        else Ok (result_of p1 p2)
    | [] => Raise (ValueError "empty window")
    end.

Definition c_0_05 : float64 := Eval vm_compute in F64.of_ratio 5 100.
Definition c_0_5 : float64 := Eval vm_compute in F64.of_ratio 5 10.
Definition c_0_0016 : float64 := Eval vm_compute in F64.of_ratio 16 10000.
Definition c_0_099995 : float64 :=
  Eval vm_compute in F64.of_ratio 99995 1000000.

(** [n] daily rows, dated [0 .. n-1], the prices of day [d] being
    [d + 1] and [2 * (d + 1)]. *)
Definition rising (n : nat) : frame :=
  map (fun d => Row (Z.of_nat d) (F64.of_Z (Z.of_nat d + 1))
                    (F64.of_Z (2 * (Z.of_nat d + 1)))) (seq 0 n).

(** Two 5-minute bars, TSLA moving from 10000 to 10016 (+0.16%). *)
Definition bars_up : frame :=
  [ Row 0 (F64.of_Z 60000) (F64.of_Z 10000);
    Row 300 (F64.of_Z 60010) (F64.of_Z 10016) ].

Definition two_days : frame :=
  [ Row 0 (F64.of_Z 60000) (F64.of_Z 250);
    Row 1 (F64.of_Z 61000) (F64.of_Z 251) ].

(** 94 rising rows, the BTC close of day 1 being -5: the ratios of days 1
    and 2 are negative. *)
Definition daily_with_negative : frame :=
  <[1%nat := Row 1 (F64.of_Z (-5)) (F64.of_Z 4)]> (rising 94).

(** 92 rising rows, the BTC close of day 1 being 0. *)
Definition daily_with_zero : frame :=
  <[1%nat := Row 1 F64.zero (F64.of_Z 4)]> (rising 92).

Definition world_up : provider :=
  Provider (Ok (rising 92)) (Ok bars_up) (Ok two_days).

Definition world_no_intraday : provider :=
  Provider (Ok (rising 92)) (Raise (ProviderError "no data")) (Ok two_days).

(** No request succeeds. *)
Definition world_down : provider :=
  Provider (Raise (ProviderError "no data")) (Raise (ProviderError "no data"))
           (Raise (ProviderError "no data")).

(** The 5-minute request fails and the 2-day request returns no row. *)
Definition world_empty_fallback : provider :=
  Provider (Ok (rising 92)) (Raise (ProviderError "no data")) (Ok []).

End Sample.

(** ** Further notions and sample data *)

(** A positive finite number (a usable price). *)
Definition positive_finite (x : float64) : bool :=
  match x with
  | S754_finite false _ _ => true
  | _ => false
  end.

Module MoreSample.

(** A test whose result holds the lag-1 entry only. *)
Definition granger_lag1_only (p1 : float64)
  : list (float64 * float64) -> Z -> outcome (gmap Z lag_result) :=
  fun _ _ => Ok {[ 1 := (Sample.tests_of p1, []) ]}.

(** 93 rising rows, and the same rows with other closes on the last day. *)
Definition daily_93 : frame := Sample.rising 93.

Definition daily_93_other_last : frame :=
  <[92%nat := Row 92 (F64.of_Z 7) (F64.of_Z 9)]> (Sample.rising 93).

(** Two 5-minute bars, the TSLA close of the first one being 0.0. *)
Definition bars_from_zero : frame :=
  [ Row 0 (F64.of_Z 60000) F64.zero;
    Row 300 (F64.of_Z 60010) (F64.of_Z 10016) ].

Definition world_from_zero : provider :=
  Provider (Ok (Sample.rising 92)) (Ok bars_from_zero) (Ok Sample.two_days).

(** The daily request fails, the 5-minute bars are there. *)
Definition world_no_daily : provider :=
  Provider (Raise (ProviderError "no data")) (Ok Sample.bars_up)
           (Ok Sample.two_days).

(** The 2-day closes on a day without a TSLA session: BTC has a close on
    both days, TSLA on the first one only. *)
Definition two_days_weekend : frame :=
  [ Row 0 (F64.of_Z 60000) (F64.of_Z 250);
    Row 1 (F64.of_Z 61000) F64.nan ].

(** The 5-minute request fails on that day. *)
Definition world_weekend : provider :=
  Provider (Ok (Sample.rising 92)) (Raise (ProviderError "no data"))
           (Ok two_days_weekend).

End MoreSample.

(** Every close of the frame is a positive finite number. *)
Definition all_prices_positive (f : frame) : bool :=
  forallb (fun r => positive_finite (btc r) && positive_finite (tsla r)) f.

(** The most recent available close of one asset, in the words of the
    specification: the last cell of its column that holds a number. *)
Definition most_recent_close (col : row -> float64) (f : frame)
  : option float64 :=
  last (filter (fun x => F64.is_nan x = false) (map col f)).

(** * Properties *)

(** ** The constants and a few runs *)

(** The constants are the doubles Python prints with [float.hex]:
    [0x1.89374bc6a7efap-10], [0x1.999999999999ap-4], [0x1.86ap+16]. *)
Example c_0_0015_bits : F64.c_0_0015 = S754_finite false 0x189374bc6a7efa (-62).
Proof. reflexivity. Qed.

Example c_0_10_bits : F64.c_0_10 = S754_finite false 0x1999999999999a (-56).
Proof. reflexivity. Qed.

Example c_1e5_bits : F64.c_1e5 = S754_finite false (0x186a0 * 2 ^ 36) (-36).
Proof. reflexivity. Qed.

Example one_bits : F64.one = S754_finite false (2 ^ 52) (-52).
Proof. reflexivity. Qed.

(** The rows of the decision table at the values of the specification. *)
Example signal_logic_0_0016 :
  signal_logic true Sample.c_0_0016 =
    ("LONG BTC", "#00ff41", "TSLA strongly up").
Proof. vm_compute. reflexivity. Qed.

Example signal_logic_0_0014 :
  signal_logic true (F64.of_ratio 14 10000) =
    ("FLAT", "#888888", "TSLA movement below threshold").
Proof. vm_compute. reflexivity. Qed.

Example signal_logic_minus_0_0016 :
  signal_logic true (F64.neg Sample.c_0_0016) =
    ("SHORT BTC", "#ff4444", "TSLA strongly down").
Proof. vm_compute. reflexivity. Qed.

Example signal_logic_nan :
  signal_logic true F64.nan =
    ("FLAT", "#888888", "TSLA movement below threshold").
Proof. vm_compute. reflexivity. Qed.

(** [round(x, 5)] on a few doubles: 0.12345678 gives 0.12346, 0.05 stays,
    NaN stays, and the double just below 0.099995 gives 0.09999. *)
Example np_round5_0_12345678 :
  np_round5 (F64.of_ratio 12345678 100000000) = F64.of_ratio 12346 100000.
Proof. vm_compute. reflexivity. Qed.

Example np_round5_0_05 : np_round5 Sample.c_0_05 = Sample.c_0_05.
Proof. vm_compute. reflexivity. Qed.

Example np_round5_nan : np_round5 F64.nan = F64.nan.
Proof. vm_compute. reflexivity. Qed.

Example np_round5_below_boundary :
  np_round5 (S754_finite false 7205399115822603 (-56)) =
    F64.of_ratio 9999 100000.
Proof. vm_compute. reflexivity. Qed.

(** A run on the sample world: 92 daily rows, one rolling score. *)
Example sample_run :
  get_live_signal Sample.log_double
    (Sample.granger_const Sample.c_0_5 Sample.c_0_05)
    Sample.world_up "2025-06-02 14:35:00 UTC" (Cache None) =
  Ok (SignalDict "LONG BTC" "#00ff41" "TSLA strongly up" "ACTIVE"
        Sample.c_0_05
        (F64.sub (F64.div (F64.of_Z 10016) (F64.of_Z 10000)) F64.one)
        (F64.of_Z 60010) (F64.of_Z 10016) "2025-06-02 14:35:00 UTC",
      Cache (Some "2025-06-02 14:35:00 UTC")).
Proof. vm_compute. reflexivity. Qed.

(** ** binary64 rounding: the facts behind [round(x, 5)] *)

(** The number of binary digits of a positive number. *)
Lemma digits2_pos_bounds (p : positive) :
  2 ^ (Zpos (digits2_pos p) - 1) <= Zpos p < 2 ^ Zpos (digits2_pos p).
Proof.
  induction p as [p IH|p IH|]; cbn [digits2_pos].
  - rewrite Pos2Z.inj_succ, Z.pow_succ_r by lia.
    replace (Z.succ (Zpos (digits2_pos p)) - 1)
      with (Z.succ (Zpos (digits2_pos p) - 1)) by lia.
    rewrite Z.pow_succ_r by lia. lia.
  - rewrite Pos2Z.inj_succ, Z.pow_succ_r by lia.
    replace (Z.succ (Zpos (digits2_pos p)) - 1)
      with (Z.succ (Zpos (digits2_pos p) - 1)) by lia.
    rewrite Z.pow_succ_r by lia. lia.
  - cbn. lia.
Qed.

Lemma digits2_pos_unique (p : positive) (d : Z) :
  2 ^ (d - 1) <= Zpos p < 2 ^ d -> Zpos (digits2_pos p) = d.
Proof.
  intros [Hlo Hhi]. pose proof (digits2_pos_bounds p) as [Hlo' Hhi'].
  assert (0 < d).
  { destruct (Z.le_gt_cases d 0) as [Hd|Hd]; [|exact Hd].
    exfalso. assert (2 ^ d <= 2 ^ 0) by (apply Z.pow_le_mono_r; lia).
    change (2 ^ 0) with 1 in *. lia. }
  assert (Zpos (digits2_pos p) - 1 < d).
  { apply (Z.pow_lt_mono_r_iff 2); lia. }
  assert (d - 1 < Zpos (digits2_pos p)).
  { apply (Z.pow_lt_mono_r_iff 2); lia. }
  lia.
Qed.

(** One step of the shift halves the mantissa. *)
Lemma shr_1_m (mrs : shr_record) :
  0 <= shr_m mrs -> shr_m (shr_1 mrs) = shr_m mrs / 2.
Proof.
  destruct mrs as [m r s]. cbn [shr_m shr_1]. intros Hm.
  destruct m as [|[p|p|]|p]; cbn [shr_m] in *;
    try lia; Z.div_mod_to_equations; lia.
Qed.

Lemma pow2_xO (n : positive) : 2 ^ Zpos n~0 = 2 ^ Zpos n * 2 ^ Zpos n.
Proof. rewrite <- Z.pow_add_r by lia. f_equal; lia. Qed.

Lemma pow2_xI (n : positive) : 2 ^ Zpos n~1 = 2 * (2 ^ Zpos n * 2 ^ Zpos n).
Proof.
  rewrite <- pow2_xO, <- Z.pow_succ_r by lia. f_equal; lia.
Qed.

Lemma iter_pos_shr_1_m (n : positive) (mrs : shr_record) :
  0 <= shr_m mrs ->
  shr_m (SpecFloat.iter_pos shr_1 n mrs) = shr_m mrs / 2 ^ Zpos n.
Proof.
  revert mrs. induction n as [n IH|n IH|]; intros mrs Hm;
    cbn [SpecFloat.iter_pos].
  - assert (H1 : 0 <= shr_m (shr_1 mrs)).
    { rewrite shr_1_m by exact Hm. apply Z.div_pos; lia. }
    assert (H2 : 0 <= shr_m (SpecFloat.iter_pos shr_1 n (shr_1 mrs))).
    { rewrite IH by exact H1. apply Z.div_pos; lia. }
    rewrite IH by exact H2. rewrite IH by exact H1. rewrite shr_1_m by exact Hm.
    rewrite !Z.div_div by lia. now rewrite pow2_xI.
  - assert (H2 : 0 <= shr_m (SpecFloat.iter_pos shr_1 n mrs)).
    { rewrite IH by exact Hm. apply Z.div_pos; lia. }
    rewrite IH by exact H2. rewrite IH by exact Hm.
    rewrite !Z.div_div by lia. now rewrite pow2_xO.
  - rewrite shr_1_m by exact Hm. reflexivity.
Qed.

Lemma round_nearest_even_cases (m : Z) (l : location) :
  round_nearest_even m l = m \/ round_nearest_even m l = m + 1.
Proof.
  destruct l as [|[| |]]; cbn [round_nearest_even]; auto.
  destruct (Z.even m); auto.
Qed.

(** Rounding a positive mantissa of [53 + n] digits to binary64, in the
    normal range: the mantissa loses its [n] low digits and the result is
    the quotient or its successor. *)
Lemma binary_round_aux_shift (P : positive) (e : Z) (n : positive) :
  Zpos (digits2_pos P) = 53 + Zpos n ->
  -1074 <= e + Zpos n <= 971 ->
  Zpos P / 2 ^ Zpos n + 1 < 2 ^ 53 ->
  exists my,
    (Zpos my = Zpos P / 2 ^ Zpos n \/ Zpos my = Zpos P / 2 ^ Zpos n + 1) /\
    binary_round_aux 53 1024 false (Zpos P) e loc_Exact =
      S754_finite false my (e + Zpos n).
Proof.
  intros Hd He Hq.
  assert (Hq52 : 2 ^ 52 <= Zpos P / 2 ^ Zpos n).
  { pose proof (digits2_pos_bounds P) as [Hlo _]. rewrite Hd in Hlo.
    apply Z.div_le_lower_bound; [lia|].
    rewrite <- Z.pow_add_r by lia.
    now replace (Zpos n + 52) with (53 + Zpos n - 1) by lia. }
  unfold binary_round_aux, shr_fexp. cbn [Zdigits2]. rewrite Hd.
  unfold fexp at 1, emin.
  replace (Z.max (53 + Zpos n + e - 53) (3 - 1024 - 53) - e)
    with (Zpos n) by lia.
  cbn [shr shr_record_of_loc].
  set (mrs := SpecFloat.iter_pos shr_1 n _).
  assert (Hm : shr_m mrs = Zpos P / 2 ^ Zpos n).
  { subst mrs. now rewrite iter_pos_shr_1_m. }
  destruct (round_nearest_even_cases (shr_m mrs) (loc_of_shr_record mrs))
    as [Hr|Hr]; rewrite Hr, Hm.
  - destruct (Zpos P / 2 ^ Zpos n) as [|my|my] eqn:Hmy; try lia.
    exists my. split; [now left|].
    assert (Hdig : Zpos (digits2_pos my) = 53)
      by (apply digits2_pos_unique; change (53 - 1) with 52; lia).
    cbn [Zdigits2]. rewrite Hdig. unfold fexp, emin.
    replace (Z.max (53 + (e + Zpos n) - 53) (3 - 1024 - 53) - (e + Zpos n))
      with 0 by lia.
    cbn [shr shr_record_of_loc shr_m].
    now replace (e + Zpos n <=? 1024 - 53) with true
      by (symmetry; apply Z.leb_le; lia).
  - destruct (Zpos P / 2 ^ Zpos n + 1) as [|my|my] eqn:Hmy; try lia.
    exists my. split; [now right|].
    assert (Hdig : Zpos (digits2_pos my) = 53)
      by (apply digits2_pos_unique; change (53 - 1) with 52; lia).
    cbn [Zdigits2]. rewrite Hdig. unfold fexp, emin.
    replace (Z.max (53 + (e + Zpos n) - 53) (3 - 1024 - 53) - (e + Zpos n))
      with 0 by lia.
    cbn [shr shr_record_of_loc shr_m].
    now replace (e + Zpos n <=? 1024 - 53) with true
      by (symmetry; apply Z.leb_le; lia).
Qed.

(** The product with [10**5] of a double of the binade of 0.1 that is at
    least 0.099995 and below the double 0.1: a double between 9999.5 and
    10000. *)
Lemma mul_1e5_window (m : positive) :
  99995 * 2 ^ 56 <= Zpos m * 1000000 ->
  Zpos m < 7205759403792794 ->
  exists my,
    19999 * 2 ^ 38 <= Zpos my <= 10000 * 2 ^ 39 /\
    F64.mul (S754_finite false m (-56)) F64.c_1e5 = S754_finite false my (-39).
Proof.
  intros Hlo Hhi.
  change (F64.mul (S754_finite false m (-56)) F64.c_1e5)
    with (binary_round_aux 53 1024 false
            (Zpos (m * 6871947673600000)) (-56 + -36) loc_Exact).
  change (2 ^ 56) with 72057594037927936 in Hlo.
  assert (HP : Zpos (m * 6871947673600000) = Zpos m * 6871947673600000)
    by apply Pos2Z.inj_mul.
  destruct (binary_round_aux_shift (m * 6871947673600000) (-56 + -36) 53)
    as (my & Hmy & Heq).
  - apply digits2_pos_unique. rewrite HP.
    change (2 ^ (53 + 53 - 1)) with 40564819207303340847894502572032.
    change (2 ^ (53 + 53)) with 81129638414606681695789005144064. lia.
  - lia.
  - rewrite HP. change (2 ^ 53) with 9007199254740992.
    Z.div_mod_to_equations. lia.
  - exists my. split; [|exact Heq].
    rewrite HP in Hmy. change (2 ^ 53) with 9007199254740992 in Hmy.
    change (2 ^ 38) with 274877906944. change (2 ^ 39) with 549755813888.
    Z.div_mod_to_equations. lia.
Qed.

(** Such a double is rounded to the integer 10000. *)
Lemma rint_window (my : positive) :
  19999 * 2 ^ 38 <= Zpos my <= 10000 * 2 ^ 39 ->
  F64.rint (S754_finite false my (-39)) = F64.of_Z 10000.
Proof.
  intros Hmy. unfold F64.rint, F64.of_Z.
  replace (F64.rne_shift (Zpos my) 39) with 10000; [reflexivity|].
  unfold F64.rne_shift.
  change (2 ^ 38) with 274877906944 in Hmy.
  change (2 ^ 39) with 549755813888 in *.
  destruct (Z.compare_spec (2 * (Zpos my mod 549755813888)) 549755813888)
    as [Hc|Hc|Hc].
  - assert (Hq : Zpos my / 549755813888 = 9999)
      by (Z.div_mod_to_equations; lia).
    rewrite Hq. reflexivity.
  - Z.div_mod_to_equations; lia.
  - Z.div_mod_to_equations; lia.
Qed.

Lemma SFltb_finite_pos (m1 m2 : positive) (e1 e2 : Z) :
  SFltb (S754_finite false m1 e1) (S754_finite false m2 e2) = true ->
  e1 < e2 \/ (e1 = e2 /\ Zpos m1 < Zpos m2).
Proof.
  unfold SFltb. cbn [SFcompare].
  change (Pos.compare_cont Eq m1 m2) with (Pos.compare m1 m2).
  destruct (Z.compare_spec e1 e2) as [He|He|He]; intros H.
  - right. split; [exact He|].
    destruct (Pos.compare_spec m1 m2) as [Hm|Hm|Hm];
      [discriminate H| |discriminate H].
    exact Hm.
  - now left.
  - discriminate H.
Qed.

(** A canonical mantissa has at most 53 digits. *)
Lemma valid_mantissa_bound (s : bool) (m : positive) (e : Z) :
  F64.valid (S754_finite s m e) = true -> Zpos m < 2 ^ 53.
Proof.
  unfold F64.valid, valid_binary, bounded, canonical_mantissa, fexp, emin.
  intros Hv. apply andb_true_iff in Hv as [Hcan _]. apply Z.eqb_eq in Hcan.
  assert (Hd : Zpos (digits2_pos m) <= 53) by (unfold F64.prec in Hcan; lia).
  pose proof (digits2_pos_bounds m) as [_ Hm].
  eapply Z.lt_le_trans; [exact Hm|]. apply Z.pow_le_mono_r; lia.
Qed.

Lemma to_Q_lower_bound (s : bool) (m : positive) (e : Z) :
  (99995 # 1000000 <= F64.to_Q (S754_finite s m e))%Q ->
  F64.valid (S754_finite s m e) = true ->
  F64.lt (S754_finite s m e) F64.c_0_10 = true ->
  s = false /\ e = -56 /\
  99995 * 2 ^ 56 <= Zpos m * 1000000 /\ Zpos m < 7205759403792794.
Proof.
  intros Hq Hv Hlt.
  apply valid_mantissa_bound in Hv.
  unfold F64.to_Q, Qle in Hq. cbn [Qnum Qden] in Hq.
  destruct s.
  { exfalso. clear Hlt Hv. cbn [cond_Zopp] in Hq.
    destruct e as [|p|p]; cbn [inject_Z Qnum Qden] in Hq.
    - lia.
    - assert (0 < 2 ^ Zpos p) by (apply Z.pow_pos_nonneg; lia). nia.
    - lia. }
  split; [reflexivity|]. cbn [cond_Zopp] in Hq.
  apply SFltb_finite_pos in Hlt as [He|[-> Hm]].
  - exfalso. destruct e as [|p|p]; try lia.
    cbn [Qnum Qden] in Hq. rewrite Pos2Z.inj_pow in Hq.
    assert (Hp : 2 ^ 57 <= 2 ^ Zpos p) by (apply Z.pow_le_mono_r; lia).
    change (2 ^ 53) with 9007199254740992 in Hv.
    change (2 ^ 57) with 144115188075855872 in Hp.
    change (Zpos 2) with 2 in Hq. nia.
  - split; [reflexivity|]. split; [|exact Hm].
    cbn [Qnum Qden] in Hq.
    change (Zpos (2 ^ 56)) with 72057594037927936 in Hq.
    change (2 ^ 56) with 72057594037927936. lia.
Qed.

(** The core of C10: a score of at least 0.099995 and strictly below the
    double 0.1 is rounded, at 5 decimals, to the double 0.1. *)
Lemma np_round5_boundary (x : float64) :
  F64.valid x = true ->
  (99995 # 1000000 <= F64.to_Q x)%Q ->
  F64.lt x F64.c_0_10 = true ->
  np_round5 x = F64.c_0_10.
Proof.
  intros Hv Hq Hlt.
  destruct x as [s|s| |s m e];
    try (exfalso; revert Hq; unfold F64.to_Q, Qle; cbn; lia).
  destruct (to_Q_lower_bound s m e Hq Hv Hlt) as (-> & -> & Hlo & Hhi).
  destruct (mul_1e5_window m Hlo Hhi) as (my & Hmy & Hmul).
  unfold np_round5. rewrite Hmul, (rint_window my Hmy).
  vm_compute. reflexivity.
Qed.
(** ** The outcome monad *)

Lemma bind_Ok {A B} (c : outcome A) (f : A -> outcome B) (b : B) :
  c ≫= f = Ok b -> exists a, c = Ok a /\ f a = Ok b.
Proof. destruct c as [a|e]; [eauto | discriminate]. Qed.

Lemma item_Some {A} (l : list A) (i : nat) (x : A) :
  l !! i = Some x -> item l i = Ok x.
Proof. unfold item. now intros ->. Qed.

Lemma item_lt {A} (l : list A) (i : nat) :
  (i < length l)%nat -> exists x, l !! i = Some x /\ item l i = Ok x.
Proof.
  intros Hi. destruct (lookup_lt_is_Some_2 l i Hi) as [x Hx].
  exists x. split; [exact Hx | now apply item_Some].
Qed.

(** ** The decision table (lines 81-96) *)

Lemma signal_logic_inactive (change : float64) :
  signal_logic false change = ("FLAT", "#888888", "Regime inactive").
Proof. reflexivity. Qed.

Lemma signal_logic_up (change : float64) :
  F64.gt change F64.c_0_0015 = true ->
  signal_logic true change = ("LONG BTC", "#00ff41", "TSLA strongly up").
Proof. unfold signal_logic. cbn [negb]. now intros ->. Qed.

(** A change below the negative threshold is not above the positive one:
    the LONG test cannot shadow the SHORT one. *)
Lemma down_not_up (change : float64) :
  F64.lt change (F64.neg F64.c_0_0015) = true ->
  F64.gt change F64.c_0_0015 = false.
Proof.
  unfold F64.lt, F64.gt, F64.neg, F64.c_0_0015, SFltb.
  destruct change as [s|s| |s m e]; cbn [SFcompare SFopp negb];
    try discriminate; destruct s; try discriminate; reflexivity.
Qed.

Lemma signal_logic_down (change : float64) :
  F64.lt change (F64.neg F64.c_0_0015) = true ->
  signal_logic true change = ("SHORT BTC", "#ff4444", "TSLA strongly down").
Proof.
  intros H. unfold signal_logic. cbn [negb].
  now rewrite (down_not_up _ H), H.
Qed.

Lemma signal_logic_small (change : float64) :
  F64.gt change F64.c_0_0015 = false ->
  F64.lt change (F64.neg F64.c_0_0015) = false ->
  signal_logic true change =
    ("FLAT", "#888888", "TSLA movement below threshold").
Proof. unfold signal_logic. cbn [negb]. now intros -> ->. Qed.

Lemma signal_logic_zero (active : bool) :
  fst (fst (signal_logic active F64.zero)) = "FLAT".
Proof. now destruct active. Qed.

(** ** The live signal (lines 53-110) *)

Section LiveSignal.

Variable libm_log : float64 -> float64.
Variable grangercausalitytests :
  list (float64 * float64) -> Z -> outcome (gmap Z lag_result).


(** The daily regime engine always returns. *)
Lemma daily_regime_returns (p : provider) :
  exists active pv,
    _get_daily_regime libm_log grangercausalitytests p = Ok (active, pv).
Proof.
  unfold _get_daily_regime, try_except.
  match goal with |- context [match ?c with Ok _ => _ | Raise _ => _ end] =>
    destruct c as [[a pv]|e] end; eauto.
Qed.

(** What [get_live_signal] returns, from the regime and the snapshot. *)
Lemma live_signal_eq (p : provider) (now : string) (cache : cache_t)
    (active : bool) (pv b t change : float64) :
  _get_daily_regime libm_log grangercausalitytests p = Ok (active, pv) ->
  price_snapshot p = Ok (b, t, change) ->
  get_live_signal libm_log grangercausalitytests p now cache =
    Ok (SignalDict (fst (fst (signal_logic active change)))
                   (snd (fst (signal_logic active change)))
                   (snd (signal_logic active change))
                   (if active then "ACTIVE" else "INACTIVE")
                   pv change b t now,
        Cache (Some now)).
Proof.
  intros Hr Hs. unfold get_live_signal. rewrite Hr. cbn. rewrite Hs. cbn.
  now destruct (signal_logic active change) as [[sg co] re].
Qed.

Lemma live_signal_raise (p : provider) (now : string) (cache : cache_t)
    (e : exception) :
  price_snapshot p = Raise e ->
  get_live_signal libm_log grangercausalitytests p now cache = Raise e.
Proof.
  intros Hs. destruct (daily_regime_returns p) as (a & pv & Hr).
  unfold get_live_signal. rewrite Hr. cbn. now rewrite Hs.
Qed.

(** The snapshot on the fallback path. *)
Lemma snapshot_fallback (p : provider) :
  intraday_unavailable p = true ->
  price_snapshot p = daily_fallback p.
Proof.
  unfold intraday_unavailable, price_snapshot, intraday_snapshot.
  destruct (intraday_closes p) as [close|e]; cbn; [|reflexivity].
  now intros ->.
Qed.

Lemma daily_fallback_last (p : provider) (daily : frame) (r : row) :
  recent_daily_closes p = Ok daily -> last daily = Some r ->
  daily_fallback p = Ok (btc r, tsla r, F64.zero).
Proof.
  intros Hd Hl. unfold daily_fallback, iloc_last. rewrite Hd. cbn.
  now rewrite Hl.
Qed.

Lemma daily_fallback_Ok (p : provider) (b t c : float64) :
  daily_fallback p = Ok (b, t, c) ->
  exists daily r, recent_daily_closes p = Ok daily /\ last daily = Some r /\
                  b = btc r /\ t = tsla r /\ c = F64.zero.
Proof.
  unfold daily_fallback, iloc_last.
  destruct (recent_daily_closes p) as [daily|e]; cbn; [|discriminate].
  destruct (last daily) as [r|] eqn:Hl; cbn; [|discriminate].
  intros [= <- <- <-]. now exists daily, r.
Qed.

(** C1. The decision table of the live signal generator, read in order
    with strict comparisons. Whatever the regime state [active] and the
    change [change] of a run, [get_live_signal] returns a signal, and:
    an inactive regime gives FLAT, "Regime inactive", whatever the
    change; an active regime gives LONG when [change > 0.0015], SHORT
    when [change < -0.0015], and FLAT, "movement below threshold",
    otherwise, in particular when the change is exactly [0.0015] or
    exactly [-0.0015]. *)
Theorem live_signal_decision_table (p : provider) (now : string)
    (cache : cache_t) (active : bool) (pv b t change : float64) :
  _get_daily_regime libm_log grangercausalitytests p = Ok (active, pv) ->
  price_snapshot p = Ok (b, t, change) ->
  exists s cache',
    get_live_signal libm_log grangercausalitytests p now cache
      = Ok (s, cache') /\
    tsla_change s = change /\
    regime s = (if active then "ACTIVE" else "INACTIVE") /\
    (active = false ->
       signal s = "FLAT" /\ reason s = "Regime inactive") /\
    (active = true -> F64.gt change F64.c_0_0015 = true ->
       signal s = "LONG BTC" /\ reason s = "TSLA strongly up") /\
    (active = true -> F64.lt change (F64.neg F64.c_0_0015) = true ->
       signal s = "SHORT BTC" /\ reason s = "TSLA strongly down") /\
    (active = true -> F64.gt change F64.c_0_0015 = false ->
     F64.lt change (F64.neg F64.c_0_0015) = false ->
       signal s = "FLAT" /\ reason s = "TSLA movement below threshold") /\
    (active = true ->
     change = F64.c_0_0015 \/ change = F64.neg F64.c_0_0015 ->
       signal s = "FLAT" /\ reason s = "TSLA movement below threshold").
Proof.
  intros Hr Hs. eexists _, _.
  split; [exact (live_signal_eq _ now cache _ _ _ _ _ Hr Hs)|].
  cbn [tsla_change regime signal reason].
  split; [reflexivity|]. split; [reflexivity|].
  split; [intros ->; now rewrite signal_logic_inactive|].
  split; [intros -> H1; now rewrite (signal_logic_up _ H1)|].
  split; [intros -> H1; now rewrite (signal_logic_down _ H1)|].
  split; [intros -> H1 H2; now rewrite (signal_logic_small _ H1 H2)|].
  intros -> [-> | ->]; now rewrite signal_logic_small.
Qed.

(** The fallback path. When the 5-minute bars cannot be used, the prices
    are the two cells of the last row of the 2-day frame, as they are (no
    [dropna] on this path: a NaN cell stays NaN), the change is [0.0] and
    the signal is FLAT, whatever the regime; no run of the fallback path
    returns LONG or SHORT. *)
Theorem fallback_only_flat (p : provider) (now : string) (cache : cache_t) :
  intraday_unavailable p = true ->
  (forall daily r,
     recent_daily_closes p = Ok daily -> last daily = Some r ->
     exists s cache',
       get_live_signal libm_log grangercausalitytests p now cache
         = Ok (s, cache') /\
       signal s = "FLAT" /\ tsla_change s = F64.zero /\
       btc_price s = btc r /\ tsla_price s = tsla r) /\
  (forall s cache',
     get_live_signal libm_log grangercausalitytests p now cache
       = Ok (s, cache') ->
     signal s = "FLAT" /\ signal s <> "LONG BTC" /\ signal s <> "SHORT BTC").
Proof.
  intros Hu. pose proof (snapshot_fallback p Hu) as Hsnap.
  destruct (daily_regime_returns p) as (active & pv & Hr).
  split.
  - intros daily r Hd Hl.
    pose proof (daily_fallback_last p daily r Hd Hl) as Hf.
    rewrite <- Hsnap in Hf.
    eexists _, _. split; [exact (live_signal_eq _ now cache _ _ _ _ _ Hr Hf)|].
    cbn [signal tsla_change btc_price tsla_price].
    now rewrite signal_logic_zero.
  - intros s cache' Hlive.
    destruct (price_snapshot p) as [[[b t] c]|e] eqn:Hs.
    + symmetry in Hsnap.
      destruct (daily_fallback_Ok p b t c Hsnap)
        as (daily & r & _ & _ & _ & _ & ->).
      rewrite (live_signal_eq _ now cache _ _ _ _ _ Hr Hs) in Hlive.
      injection Hlive as <- <-. cbn [signal].
      rewrite signal_logic_zero. repeat split; discriminate.
    + now rewrite (live_signal_raise _ now cache e Hs) in Hlive.
Qed.

(** C2, at the failing input: a day on which the 5-minute request fails
    and TSLA has no close on the last day of the 2-day frame. The signal
    is FLAT with a change of [0.0], as specified, but the TSLA price
    returned is the NaN cell of the last row, not the most recent TSLA
    close (250): the fallback reads [iloc[-1]] without the [dropna] of
    the two other paths. *)
Theorem fallback_price_is_last_row_cell (now : string) (cache : cache_t) :
  intraday_unavailable MoreSample.world_weekend = true /\
  most_recent_close btc MoreSample.two_days_weekend = Some (F64.of_Z 61000) /\
  most_recent_close tsla MoreSample.two_days_weekend = Some (F64.of_Z 250) /\
  exists s cache',
    get_live_signal libm_log grangercausalitytests
      MoreSample.world_weekend now cache = Ok (s, cache') /\
    signal s = "FLAT" /\ tsla_change s = F64.zero /\
    btc_price s = F64.of_Z 61000 /\
    tsla_price s = F64.nan.
Proof.
  split; [reflexivity|]. split; [reflexivity|]. split; [reflexivity|].
  destruct (daily_regime_returns MoreSample.world_weekend)
    as (active & pv & Hr).
  eexists _, _.
  split; [exact (live_signal_eq MoreSample.world_weekend now cache
                   _ _ _ _ _ Hr eq_refl)|].
  cbn [signal tsla_change btc_price tsla_price].
  now rewrite signal_logic_zero.
Qed.

(** C3, at the failing inputs: when the 5-minute request fails and the
    2-day request fails too, or returns no row, the exception raised in
    the handler leaves [get_live_signal]; no signal is returned. *)
Theorem fallback_failure_reaches_caller (now : string) (cache : cache_t) :
  get_live_signal libm_log grangercausalitytests
    Sample.world_down now cache = Raise (ProviderError "no data") /\
  get_live_signal libm_log grangercausalitytests
    Sample.world_empty_fallback now cache = Raise IndexError.
Proof. split; now apply live_signal_raise. Qed.

(** The regime engine never raises: for every answer of the provider
    and every behaviour of the test it returns a pair. *)
Theorem daily_regime_never_raises (p : provider) :
  raised (_get_daily_regime libm_log grangercausalitytests p) = false.
Proof. destruct (daily_regime_returns p) as (a & pv & ->). reflexivity. Qed.

(** A signal is returned exactly when the prices could be read, from the
    5-minute bars or from the 2-day closes. *)
Theorem live_signal_returns_iff (p : provider) (now : string)
    (cache : cache_t) :
  raised (get_live_signal libm_log grangercausalitytests p now cache) =
  raised (price_snapshot p).
Proof.
  destruct (daily_regime_returns p) as (a & pv & Hr).
  destruct (price_snapshot p) as [[[b t] c]|e] eqn:Hs.
  - now rewrite (live_signal_eq p now cache _ _ _ _ _ Hr Hs).
  - now rewrite (live_signal_raise p now cache e Hs).
Qed.

(** The only state written is the "last update" marker: a returned
    signal carries the generation time, and the cache holds it
    afterwards, whatever it held before. *)
Theorem live_signal_marks_update (p : provider) (now : string)
    (cache : cache_t) :
  match get_live_signal libm_log grangercausalitytests p now cache with
  | Ok (s, cache') => timestamp s = now /\ last_update cache' = Some now
  | Raise _ => True
  end.
Proof.
  destruct (daily_regime_returns p) as (a & pv & Hr).
  destruct (price_snapshot p) as [[[b t] c]|e] eqn:Hs.
  - now rewrite (live_signal_eq p now cache _ _ _ _ _ Hr Hs).
  - now rewrite (live_signal_raise p now cache e Hs).
Qed.

(** Two calls on the same answers of the provider, at any two times and
    from any two caches, agree on everything but the timestamp. *)
Theorem live_signal_idempotent (p : provider) (now1 now2 : string)
    (cache1 cache2 : cache_t) :
  match get_live_signal libm_log grangercausalitytests p now1 cache1,
        get_live_signal libm_log grangercausalitytests p now2 cache2 with
  | Ok (s1, _), Ok (s2, _) =>
      signal s1 = signal s2 /\ color s1 = color s2 /\
      reason s1 = reason s2 /\ regime s1 = regime s2 /\
      p_value s1 = p_value s2 /\ tsla_change s1 = tsla_change s2 /\
      btc_price s1 = btc_price s2 /\ tsla_price s1 = tsla_price s2
  | Raise e1, Raise e2 => e1 = e2
  | _, _ => False
  end.
Proof.
  destruct (daily_regime_returns p) as (a & pv & Hr).
  destruct (price_snapshot p) as [[[b t] c]|e] eqn:Hs.
  - rewrite !(live_signal_eq p _ _ _ _ _ _ _ Hr Hs). now repeat split.
  - now rewrite !(live_signal_raise p _ _ e Hs).
Qed.

(** The primary path: when at least two complete 5-minute rows are left,
    the prices are those of the last row and the change is
    [tsla_now / tsla_prev - 1] on the last two rows. *)
Theorem intraday_change_formula (p : provider) (close older : frame)
    (prev cur : row) :
  intraday_closes p = Ok close ->
  dropna close = older ++ [prev; cur] ->
  price_snapshot p =
    Ok (btc cur, tsla cur,
        F64.sub (F64.div (tsla cur) (tsla prev)) F64.one).
Proof.
  intros Hc Hrows. unfold price_snapshot, intraday_snapshot.
  rewrite Hc. cbn [mbind outcome_bind]. rewrite Hrows.
  replace (length (older ++ [prev; cur]) <? 2)%nat with false
    by (symmetry; apply Nat.ltb_ge; rewrite length_app; cbn; lia).
  rewrite reverse_app. reflexivity.
Qed.

End LiveSignal.

(** The two sample bars: TSLA moves from 10000 to 10016. *)
Lemma intraday_change_formula_witness :
  price_snapshot Sample.world_up =
    Ok (F64.of_Z 60010, F64.of_Z 10016,
        F64.sub (F64.div (F64.of_Z 10016) (F64.of_Z 10000)) F64.one).
Proof.
  exact (intraday_change_formula Sample.world_up Sample.bars_up []
           (Row 0 (F64.of_Z 60000) (F64.of_Z 10000))
           (Row 300 (F64.of_Z 60010) (F64.of_Z 10016))
           eq_refl eq_refl).
Defined.

(** The decision table on the sample world: an active regime (lag-2
    p-value 0.05) and a change of +0.16% give LONG. *)
Lemma live_signal_decision_table_witness :
  exists s cache',
    get_live_signal Sample.log_double
      (Sample.granger_const Sample.c_0_5 Sample.c_0_05)
      Sample.world_up "2025-06-02 14:35:00 UTC" (Cache None) = Ok (s, cache') /\
    signal s = "LONG BTC" /\ reason s = "TSLA strongly up".
Proof.
  destruct (live_signal_decision_table Sample.log_double
              (Sample.granger_const Sample.c_0_5 Sample.c_0_05)
              Sample.world_up "2025-06-02 14:35:00 UTC" (Cache None)
              true Sample.c_0_05
              (F64.of_Z 60010) (F64.of_Z 10016)
              (F64.sub (F64.div (F64.of_Z 10016) (F64.of_Z 10000)) F64.one))
    as (s & c & Hlive & _ & _ & _ & Hup & _).
  - vm_compute. reflexivity.
  - vm_compute. reflexivity.
  - exists s, c. split; [exact Hlive|]. apply Hup; [reflexivity|].
    vm_compute. reflexivity.
Defined.

(** The fallback on a world without 5-minute bars: FLAT, change 0.0 and
    the closes of the last daily row. *)
Lemma fallback_only_flat_witness :
  intraday_unavailable Sample.world_no_intraday = true /\
  exists s cache',
    get_live_signal Sample.log_double
      (Sample.granger_const Sample.c_0_5 Sample.c_0_05)
      Sample.world_no_intraday "2025-06-02 14:35:00 UTC" (Cache None)
      = Ok (s, cache') /\
    signal s = "FLAT" /\ tsla_change s = F64.zero /\
    btc_price s = F64.of_Z 61000 /\ tsla_price s = F64.of_Z 251.
Proof.
  split; [reflexivity|].
  refine (proj1 (fallback_only_flat Sample.log_double
            (Sample.granger_const Sample.c_0_5 Sample.c_0_05)
            Sample.world_no_intraday "2025-06-02 14:35:00 UTC" (Cache None) _)
            Sample.two_days (Row 1 (F64.of_Z 61000) (F64.of_Z 251)) _ _);
    reflexivity.
Defined.

(** ** The rolling scan (lines 34-43) *)

Section RollingScan.

Variable grangercausalitytests :
  list (float64 * float64) -> Z -> outcome (gmap Z lag_result).


(** The loop over [seq a n], started in the state [(pvals, dates)],
    appends one score and one date per index. *)
Lemma for_each_scan (returns : frame) (n a : nat)
    (pvals : list float64) (dates : list Z) :
  (a + n <= length returns)%nat ->
  for_each (scan_step grangercausalitytests returns) (pvals, dates) (seq a n) =
    Ok (pvals ++ map (fun i => window_score grangercausalitytests
                                 (window returns i)) (seq a n),
        dates ++ map date (take n (drop a returns))).
Proof.
  revert a pvals dates.
  induction n as [|n IH]; intros a pvals dates Hlen.
  - cbn. now rewrite !app_nil_r.
  - destruct (item_lt returns a) as (r & Hr & Hitem); [lia|].
    cbn [seq for_each scan_step]. rewrite Hitem. cbn.
    rewrite IH by lia.
    rewrite (drop_S _ _ _ Hr). cbn [take map].
    now rewrite <- !app_assoc.
Qed.

Lemma rolling_scan_eq (returns : frame) :
  rolling_scan grangercausalitytests returns =
    Ok (map (fun i => window_score grangercausalitytests (window returns i))
            (seq 90 (length returns - 90)),
        map date (drop 90 returns)).
Proof.
  unfold rolling_scan.
  destruct (decide (length returns <= 90)%nat) as [Hshort|Hlong].
  - replace (length returns - 90)%nat with 0%nat by lia.
    now rewrite drop_ge by lia.
  - rewrite for_each_scan by lia. cbn [app].
    now rewrite take_ge by (rewrite length_drop; lia).
Qed.

(** The window of index [i] holds the 90 observations [i-90 .. i-1]. *)
Lemma window_length (returns : frame) (i : nat) :
  (90 <= i <= length returns)%nat -> length (window returns i) = 90%nat.
Proof.
  intros Hi. unfold window, iloc_slice.
  rewrite length_drop, length_take. lia.
Qed.

Lemma window_lookup (returns : frame) (i k : nat) :
  (90 <= i)%nat -> (k < 90)%nat ->
  window returns i !! k = returns !! (i - 90 + k)%nat.
Proof.
  intros Hi Hk. unfold window, iloc_slice.
  rewrite lookup_drop. apply lookup_take_lt. lia.
Qed.

(** The score of a window, by cases on the outcome of the test. *)
Lemma window_score_raise (subset : frame) (e : exception) :
  grangercausalitytests (values subset) 2 = Raise e ->
  window_score grangercausalitytests subset = F64.one.
Proof. unfold window_score. now intros ->. Qed.

Lemma window_score_Ok (subset : frame) (res : gmap Z lag_result) :
  grangercausalitytests (values subset) 2 = Ok res ->
  window_score grangercausalitytests subset = default F64.one (lag2_pvalue res).
Proof.
  unfold window_score, lag2_pvalue, dict_get, item. intros ->. cbn.
  destruct (res !! 2) as [[tests fits]|]; cbn; [|reflexivity].
  destruct (tests !! "ssr_ftest") as [ftest|]; cbn; [|reflexivity].
  now destruct (ftest !! 1%nat).
Qed.

Lemma window_score_congr
    (g' : list (float64 * float64) -> Z -> outcome (gmap Z lag_result))
    (subset : frame) :
  grangercausalitytests (values subset) 2 = g' (values subset) 2 ->
  window_score grangercausalitytests subset = window_score g' subset.
Proof. unfold window_score. now intros ->. Qed.

Lemma scores_lookup (returns : frame) (i : nat) :
  (90 <= i < length returns)%nat ->
  map (fun i => window_score grangercausalitytests (window returns i))
      (seq 90 (length returns - 90)) !! (i - 90)%nat =
    Some (window_score grangercausalitytests (window returns i)).
Proof.
  intros Hi. rewrite list_lookup_fmap, lookup_seq_lt by lia.
  replace (90 + (i - 90))%nat with i by lia. reflexivity.
Qed.

(** Strictly increasing dates stay so in a suffix. *)
Lemma StronglySorted_drop {A} (R : A -> A -> Prop) (l : list A) (n : nat) :
  StronglySorted R l -> StronglySorted R (drop n l).
Proof.
  intros H. rewrite <- (take_drop n l) in H.
  now apply StronglySorted_app_1_r in H.
Qed.

End RollingScan.

Section RollingScanProperties.

Variable grangercausalitytests :
  list (float64 * float64) -> Z -> outcome (gmap Z lag_result).


Lemma window_score_in_unit (subset : frame) :
  pvalues_in_unit grangercausalitytests ->
  in_unit (window_score grangercausalitytests subset) = true.
Proof.
  intros Hunit.
  destruct (grangercausalitytests (values subset) 2) as [res|e] eqn:Hg.
  - rewrite (window_score_Ok _ _ _ Hg).
    destruct (lag2_pvalue res) as [p|] eqn:Hp; [|reflexivity].
    exact (Hunit _ _ _ Hg Hp).
  - now rewrite (window_score_raise _ _ _ Hg).
Qed.

(** C4, as amended. On a return series of length at least 91 the rolling
    scan produces exactly [len - 90] scores and as many dates. The score
    of index [i] comes from the test run on the 90 pairs of values of the
    rows [i-90 .. i-1]: it is the lag-2 F-test p-value the test returned,
    as returned, and 1.0 when the test raised; its date is the date of
    row [i]. No range is enforced: the scores are in [0, 1] when the
    p-values of the test are. The dates are strictly increasing when
    those of the series are. *)
Theorem rolling_scan_scores_as_returned (returns : frame) :
  (91 <= length returns)%nat ->
  exists pvals dates,
    rolling_scan grangercausalitytests returns = Ok (pvals, dates) /\
    length pvals = (length returns - 90)%nat /\
    length dates = (length returns - 90)%nat /\
    (forall i, (90 <= i < length returns)%nat ->
       exists xs : list (float64 * float64),
         length xs = 90%nat /\
         (forall k, (k < 90)%nat ->
            xs !! k =
              (fun r => (btc r, tsla r)) <$> returns !! (i - 90 + k)%nat) /\
         (forall res tests fits ftest p,
            grangercausalitytests xs 2 = Ok res ->
            res !! 2 = Some (tests, fits) ->
            tests !! "ssr_ftest" = Some ftest ->
            ftest !! 1%nat = Some p ->
            pvals !! (i - 90)%nat = Some p) /\
         (forall e,
            grangercausalitytests xs 2 = Raise e ->
            pvals !! (i - 90)%nat = Some F64.one) /\
         dates !! (i - 90)%nat = date <$> returns !! i) /\
    (pvalues_in_unit grangercausalitytests ->
     Forall (fun p => in_unit p = true) pvals) /\
    (StronglySorted Z.lt (map date returns) -> StronglySorted Z.lt dates).
Proof.
  intros Hlen. eexists _, _.
  split; [apply rolling_scan_eq|].
  split; [now rewrite length_map, length_seq|].
  split; [now rewrite length_map, length_drop|].
  split; [|split].
  - intros i Hi. exists (values (window returns i)).
    split; [unfold values; rewrite length_map; apply window_length; lia|].
    split.
    { intros k Hk. unfold values.
      rewrite list_lookup_fmap, window_lookup by lia. reflexivity. }
    split; [|split].
    + intros res tests fits ftest p Hg H2 Hf Hp.
      rewrite scores_lookup by lia. f_equal.
      rewrite (window_score_Ok _ _ _ Hg). unfold lag2_pvalue.
      rewrite H2. cbn [mbind option_bind fst]. rewrite Hf.
      cbn [mbind option_bind]. now rewrite Hp.
    + intros e Hg. rewrite scores_lookup by lia.
      now rewrite (window_score_raise _ _ _ Hg).
    + rewrite list_lookup_fmap, lookup_drop.
      now replace (90 + (i - 90))%nat with i by lia.
  - intros Hunit. apply Forall_forall. intros p Hp.
    apply list_elem_of_fmap in Hp as (i & -> & _).
    now apply window_score_in_unit.
  - intros Hsorted. rewrite fmap_drop. now apply StronglySorted_drop.
Qed.
(** C6. When the test raises on the window of index [k] and a second
    test agrees with it on every other window, the scan still completes:
    its scores are those of the second test, except the score of index
    [k], which is [1.0]; the dates are the same. *)
Theorem single_window_failure
    (g' : list (float64 * float64) -> Z -> outcome (gmap Z lag_result))
    (returns : frame) (k : nat) :
  (90 <= k < length returns)%nat ->
  raised (grangercausalitytests (values (window returns k)) 2) = true ->
  (forall i, (90 <= i < length returns)%nat -> i <> k ->
     grangercausalitytests (values (window returns i)) 2 =
     g' (values (window returns i)) 2) ->
  exists pvals pvals' dates,
    rolling_scan grangercausalitytests returns = Ok (pvals, dates) /\
    rolling_scan g' returns = Ok (pvals', dates) /\
    length pvals = (length returns - 90)%nat /\
    pvals !! (k - 90)%nat = Some F64.one /\
    pvals = <[(k - 90)%nat := F64.one]> pvals'.
Proof.
  intros Hk Hfail Hsame. eexists _, _, _.
  split; [apply rolling_scan_eq|]. split; [apply rolling_scan_eq|].
  assert (Hone : window_score grangercausalitytests (window returns k)
                 = F64.one).
  { destruct (grangercausalitytests (values (window returns k)) 2)
      as [res|e] eqn:Hg;
      [discriminate | exact (window_score_raise _ _ _ Hg)]. }
  split; [now rewrite length_map, length_seq|].
  split.
  - now rewrite scores_lookup, Hone.
  - apply list_eq. intros j.
    destruct (decide (j = k - 90)%nat) as [->|Hne].
    + rewrite list_lookup_insert_eq by (rewrite length_map, length_seq; lia).
      now rewrite scores_lookup, Hone.
    + rewrite list_lookup_insert_ne by congruence.
      rewrite !list_lookup_fmap.
      destruct (decide (j < length returns - 90)%nat) as [Hj|Hj].
      * rewrite lookup_seq_lt by lia.
        cbn [fmap option_fmap option_map]. f_equal.
        apply window_score_congr, Hsame; lia.
      * now rewrite lookup_seq_ge by lia.
Qed.

(** C8. The score of a window on which the test succeeds is the p-value
    at position 1 of the ['ssr_ftest'] entry of the lag-2 result, and
    nothing else of the result counts: a test whose result has the same
    lag-2 entry gives the same score, in particular one whose lag-1
    entry has been replaced by anything. *)
Theorem score_is_lag2_ftest_pvalue (subset : frame) (res : gmap Z lag_result) :
  grangercausalitytests (values subset) 2 = Ok res ->
  (forall tests fits ftest p,
     res !! 2 = Some (tests, fits) -> tests !! "ssr_ftest" = Some ftest ->
     ftest !! 1%nat = Some p ->
     window_score grangercausalitytests subset = p) /\
  (forall g' res',
     g' (values subset) 2 = Ok res' -> res' !! 2 = res !! 2 ->
     window_score g' subset = window_score grangercausalitytests subset) /\
  (forall g' lag1,
     g' (values subset) 2 = Ok (<[1 := lag1]> res) ->
     window_score g' subset = window_score grangercausalitytests subset).
Proof.
  intros Hg. rewrite (window_score_Ok _ _ _ Hg).
  assert (Hsame : forall g' res',
     g' (values subset) 2 = Ok res' -> res' !! 2 = res !! 2 ->
     window_score g' subset = default F64.one (lag2_pvalue res)).
  { intros g' res' Hg' H2. unfold window_score, lag2_pvalue, dict_get, item.
    rewrite Hg'. cbn. rewrite H2.
    destruct (res !! 2) as [[tests fits]|]; cbn; [|reflexivity].
    destruct (tests !! "ssr_ftest") as [ftest|]; cbn; [|reflexivity].
    now destruct (ftest !! 1%nat). }
  split; [|split].
  - intros tests fits ftest p H2 Hf Hp. unfold lag2_pvalue.
    rewrite H2. cbn. rewrite Hf. cbn. now rewrite Hp.
  - exact Hsame.
  - intros g' lag1 Hg'. apply (Hsame g' _ Hg').
    now apply lookup_insert_ne.
Qed.

End RollingScanProperties.

(** The scan of 92 return rows with a test that always answers 0.05:
    two scores, the first one 0.05, dated 90. *)
Lemma rolling_scan_scores_as_returned_witness :
  exists pvals dates,
    rolling_scan (Sample.granger_const Sample.c_0_5 Sample.c_0_05)
      (Sample.rising 92) = Ok (pvals, dates) /\
    length pvals = 2%nat /\
    pvals !! 0%nat = Some Sample.c_0_05 /\
    dates !! 0%nat = Some 90.
Proof.
  destruct (rolling_scan_scores_as_returned
              (Sample.granger_const Sample.c_0_5 Sample.c_0_05)
              (Sample.rising 92))
    as (pvals & dates & Hscan & Hlen & _ & Hrows & _).
  - vm_compute. lia.
  - destruct (Hrows 90%nat) as (xs & _ & _ & Hok & _ & Hdate).
    { vm_compute. lia. }
    exists pvals, dates. split; [exact Hscan|]. split; [exact Hlen|]. split.
    + apply (Hok (Sample.result_of Sample.c_0_5 Sample.c_0_05)
               (Sample.tests_of Sample.c_0_05) []
               [F64.of_Z 3; Sample.c_0_05; F64.of_Z 85; F64.of_Z 2]).
      * reflexivity.
      * vm_compute. reflexivity.
      * vm_compute. reflexivity.
      * reflexivity.
    + change (90 - 90)%nat with 0%nat in Hdate. rewrite Hdate.
      vm_compute. reflexivity.
Defined.

(** C4 fails on the code as stated: on 92 return rows with increasing
    dates, a test that answers NaN at lag 2 gives two NaN scores, which
    are not in [0, 1]. *)
Lemma nan_pvalue_is_recorded :
  (91 <= length (Sample.rising 92))%nat /\
  StronglySorted Z.lt (map date (Sample.rising 92)) /\
  rolling_scan (Sample.granger_const Sample.c_0_5 F64.nan)
    (Sample.rising 92) = Ok ([F64.nan; F64.nan], [90; 91]) /\
  ~ Forall (fun p => in_unit p = true) [F64.nan; F64.nan].
Proof.
  split; [vm_compute; lia|].
  split; [apply (bool_decide_unpack (StronglySorted Z.lt _));
          vm_compute; reflexivity|].
  split; [vm_compute; reflexivity|].
  intros H. apply Forall_cons in H as [H _]. discriminate H.
Qed.

(** 92 return rows and a test that raises on the first window only: the
    first score is 1.0, the second is the one of the test that never
    raises. *)
Lemma single_window_failure_witness :
  exists pvals pvals' dates,
    rolling_scan
      (Sample.granger_failing_at (F64.of_Z 1) Sample.c_0_5 Sample.c_0_05)
      (Sample.rising 92) = Ok (pvals, dates) /\
    rolling_scan (Sample.granger_const Sample.c_0_5 Sample.c_0_05)
      (Sample.rising 92) = Ok (pvals', dates) /\
    pvals !! 0%nat = Some F64.one /\
    pvals = <[0%nat := F64.one]> pvals'.
Proof.
  destruct (single_window_failure
              (Sample.granger_failing_at (F64.of_Z 1)
                 Sample.c_0_5 Sample.c_0_05)
              (Sample.granger_const Sample.c_0_5 Sample.c_0_05)
              (Sample.rising 92) 90)
    as (pvals & pvals' & dates & H1 & H2 & _ & H3 & H4).
  - vm_compute. lia.
  - vm_compute. reflexivity.
  - intros i Hi Hne. assert (i = 91%nat) as ->.
    { vm_compute in Hi. lia. }
    vm_compute. reflexivity.
  - exists pvals, pvals', dates. repeat split; assumption.
Defined.

(** A result with p-value 0.5 at lag 1 and 0.05 at lag 2: the score is
    0.05. *)
Lemma score_is_lag2_ftest_pvalue_witness :
  window_score (Sample.granger_const Sample.c_0_5 Sample.c_0_05)
    (window (Sample.rising 92) 90) = Sample.c_0_05.
Proof.
  refine (proj1 (score_is_lag2_ftest_pvalue
            (Sample.granger_const Sample.c_0_5 Sample.c_0_05)
            (window (Sample.rising 92) 90)
            (Sample.result_of Sample.c_0_5 Sample.c_0_05) eq_refl)
          (Sample.tests_of Sample.c_0_05) []
          [F64.of_Z 3; Sample.c_0_05; F64.of_Z 85; F64.of_Z 2]
          Sample.c_0_05 _ _ _).
  - vm_compute. reflexivity.
  - vm_compute. reflexivity.
  - reflexivity.
Defined.

(** ** The return series (lines 30-32) *)

Lemma shift1_length (f : frame) : length (shift1 f) = length f.
Proof.
  destruct f as [|r rest]; [reflexivity|]. cbn [shift1 length].
  rewrite length_zip_with. cbn [length]. lia.
Qed.

Lemma shift1_lookup_0 (f : frame) (r : row) :
  f !! 0%nat = Some r ->
  shift1 f !! 0%nat = Some (Row (date r) F64.nan F64.nan).
Proof. destruct f as [|r0 rest]; [discriminate|]. now intros [= ->]. Qed.

Lemma shift1_lookup_S (f : frame) (i : nat) (prev cur : row) :
  f !! i = Some prev -> f !! S i = Some cur ->
  shift1 f !! S i = Some (Row (date cur) (btc prev) (tsla prev)).
Proof.
  destruct f as [|r0 rest]; [discriminate|]. intros Hp Hc.
  change (rest !! i = Some cur) in Hc.
  cbn [shift1]. rewrite lookup_cons, lookup_zip_with, Hp, Hc. reflexivity.
Qed.

Section ReturnSeries.

Variable libm_log : float64 -> float64.


(** The row of the ratios at index [i], before the logarithm. *)
Lemma ratio_lookup_0 (daily : frame) (r r' : row) :
  daily !! 0%nat = Some r ->
  frame_div daily (shift1 daily) !! 0%nat = Some r' -> btc r' = F64.nan.
Proof.
  intros H0. unfold frame_div. rewrite lookup_zip_with, H0. cbn.
  rewrite (shift1_lookup_0 _ _ H0). cbn. intros [= <-]. cbn.
  now destruct (btc r).
Qed.

Lemma ratio_lookup_S (daily : frame) (i : nat) (prev cur : row) :
  daily !! i = Some prev -> daily !! S i = Some cur ->
  frame_div daily (shift1 daily) !! S i =
    Some (Row (date cur) (F64.div (btc cur) (btc prev))
                         (F64.div (tsla cur) (tsla prev))).
Proof.
  intros Hp Hc. unfold frame_div. rewrite lookup_zip_with, Hc. cbn.
  now rewrite (shift1_lookup_S _ _ _ _ Hp Hc).
Qed.

(** The return series is shorter than the price frame: its first row, at
    least, is lost. *)
Theorem log_returns_length (daily : frame) :
  (length (log_returns libm_log daily) <= length daily - 1)%nat.
Proof.
  unfold log_returns, dropna.
  destruct daily as [|r0 rest]; [cbn; lia|].
  set (ratios := frame_div (r0 :: rest) (shift1 (r0 :: rest))).
  assert (Hlen : length ratios = S (length rest)).
  { subst ratios. unfold frame_div.
    rewrite length_zip_with, shift1_length, Nat.min_id. reflexivity. }
  destruct ratios as [|first others] eqn:Hratios; [discriminate Hlen|].
  assert (Hnan : btc first = F64.nan).
  { apply (ratio_lookup_0 (r0 :: rest) r0 first); [reflexivity|].
    fold ratios. now rewrite Hratios. }
  cbn [frame_log map].
  rewrite filter_cons_False
    by (unfold row_has_nan; cbn [btc]; rewrite Hnan; discriminate).
  etransitivity; [apply length_filter|].
  rewrite length_map. cbn [length] in *. lia.
Qed.

(** C9, as amended. The return series is made exactly of the rows, from
    the second one on, whose two log-returns [ln (price t / price (t-1))]
    are not NaN, whatever the sign of the prices: no error is raised for a
    price that is zero or negative. The logarithm of a negative number is
    NaN (the row is dropped), the logarithm of a zero is minus infinity
    (the row stays). *)
Theorem log_returns_rows (daily : frame) :
  (forall r,
     r ∈ log_returns libm_log daily <->
     exists i prev cur,
       daily !! i = Some prev /\ daily !! S i = Some cur /\
       r = Row (date cur) (np_log libm_log (F64.div (btc cur) (btc prev)))
                          (np_log libm_log (F64.div (tsla cur) (tsla prev))) /\
       row_has_nan r = false) /\
  (forall x, F64.lt x F64.zero = true -> np_log libm_log x = F64.nan) /\
  (forall s, np_log libm_log (S754_zero s) = F64.neg_inf).
Proof.
  split; [|split].
  - intros r. unfold log_returns, dropna, frame_log.
    rewrite list_elem_of_filter, list_elem_of_fmap. split.
    + intros (Hnan & q & -> & Hq).
      apply list_elem_of_lookup in Hq as (j & Hj).
      destruct j as [|i].
      * exfalso. destruct (daily !! 0%nat) as [r0|] eqn:H0.
        -- pose proof (ratio_lookup_0 _ _ _ H0 Hj) as Hb.
           unfold row_has_nan in Hnan. cbn in Hnan. now rewrite Hb in Hnan.
        -- unfold frame_div in Hj. rewrite lookup_zip_with, H0 in Hj.
           discriminate.
      * assert (Hlen : (S i < length daily)%nat).
        { apply lookup_lt_Some in Hj. unfold frame_div in Hj.
          rewrite length_zip_with, shift1_length in Hj. lia. }
        destruct (lookup_lt_is_Some_2 daily i) as [prev Hp]; [lia|].
        destruct (lookup_lt_is_Some_2 daily (S i) Hlen) as [cur Hc].
        rewrite (ratio_lookup_S _ _ _ _ Hp Hc) in Hj. injection Hj as <-.
        exists i, prev, cur. now repeat split.
    + intros (i & prev & cur & Hp & Hc & -> & Hnan). split; [exact Hnan|].
      eexists. split; [|apply list_elem_of_lookup; exists (S i);
                        exact (ratio_lookup_S _ _ _ _ Hp Hc)].
      reflexivity.
  - intros x Hx. destruct x as [s|s| |s m e]; try discriminate;
      destruct s; try discriminate; reflexivity.
  - reflexivity.
Qed.

End ReturnSeries.

(** C9 fails on the code. With a negative close on day 1 the two rows
    whose ratio is negative are dropped without an error, 91 rows are
    left and the regime is computed from them (here active, not the
    default); with a zero close on day 1 the return of that day is minus
    infinity and is part of the first window handed to the test. *)
Lemma nonpositive_price_is_not_fatal :
  (Exists (fun r => nonpositive (btc r) = true) Sample.daily_with_negative /\
   length (log_returns Sample.log_double Sample.daily_with_negative) = 91%nat /\
   _get_daily_regime Sample.log_double
     (Sample.granger_const Sample.c_0_5 Sample.c_0_05)
     (Provider (Ok Sample.daily_with_negative) (Ok Sample.bars_up)
               (Ok Sample.two_days))
     = Ok (true, Sample.c_0_05)) /\
  (Exists (fun r => nonpositive (btc r) = true) Sample.daily_with_zero /\
   btc <$> window (log_returns Sample.log_double Sample.daily_with_zero) 90
       !! 0%nat = Some F64.neg_inf).
Proof.
  split; split.
  - apply Exists_cons_tl, Exists_cons_hd. reflexivity.
  - split; vm_compute; reflexivity.
  - apply Exists_cons_tl, Exists_cons_hd. reflexivity.
  - vm_compute. reflexivity.
Qed.

(** ** The daily regime (lines 28-50) *)

Lemma last_zip_snd {A B} (l : list A) (k : list B) :
  length k = length l -> snd <$> last (zip l k) = last k.
Proof.
  intros Hlen. rewrite <- fmap_last. f_equal. apply snd_zip. lia.
Qed.

Section DailyRegime.

Variable libm_log : float64 -> float64.
Variable grangercausalitytests :
  list (float64 * float64) -> Z -> outcome (gmap Z lag_result).


(** The regime is a function of the most recent score: its comparison
    with 0.10 and its rounding when there is one, the default otherwise. *)
Lemma daily_regime_eq (p : provider) :
  _get_daily_regime libm_log grangercausalitytests p =
    Ok match latest_score libm_log grangercausalitytests p with
       | Some s => (F64.lt s F64.c_0_10, np_round5 s)
       | None => (false, F64.one)
       end.
Proof.
  unfold _get_daily_regime, latest_score.
  destruct (daily_closes p) as [daily|e]; [|reflexivity].
  cbn [mbind outcome_bind]. rewrite rolling_scan_eq. cbn [mbind outcome_bind].
  set (returns := log_returns libm_log daily).
  set (pvals := map _ (seq 90 _)). set (dates := map date _).
  assert (Hlen : length pvals = length dates).
  { subst pvals dates. now rewrite !length_map, length_seq, length_drop. }
  unfold pd_Series. rewrite Hlen, Nat.eqb_refl. cbn [mbind outcome_bind].
  pose proof (last_zip_snd dates pvals Hlen) as Hlast.
  unfold iloc_last.
  destruct (last (zip dates pvals)) as [[d s]|]; cbn in Hlast;
    rewrite <- Hlast; reflexivity.
Qed.

Lemma latest_score_length (p : provider) (daily : frame) :
  daily_closes p = Ok daily ->
  (length (log_returns libm_log daily) < 91)%nat ->
  latest_score libm_log grangercausalitytests p = None.
Proof.
  intros Hd Hshort. unfold latest_score. rewrite Hd, rolling_scan_eq.
  now replace (length (log_returns libm_log daily) - 90)%nat with 0%nat by lia.
Qed.

(** C5. The regime is active exactly when there is a most recent rolling
    score and it is strictly below 0.10; a most recent score equal to
    0.10 gives an inactive regime. *)
Theorem regime_active_iff (p : provider) :
  exists active pv,
    _get_daily_regime libm_log grangercausalitytests p = Ok (active, pv) /\
    (active = true <->
       exists s, latest_score libm_log grangercausalitytests p = Some s /\
                 F64.lt s F64.c_0_10 = true) /\
    (latest_score libm_log grangercausalitytests p = Some F64.c_0_10 ->
     active = false).
Proof.
  rewrite daily_regime_eq.
  destruct (latest_score libm_log grangercausalitytests p) as [s|];
    eexists _, _; (split; [reflexivity|]); split.
  - split; [intros H; now exists s | now intros (s' & [= <-] & H)].
  - now intros [= ->].
  - split; [discriminate | now intros (s' & [=] & _)].
  - discriminate.
Qed.

(** C7. When the daily request fails, or the return series has fewer than
    91 rows, the regime engine raises nothing and returns the default
    [(False, 1.0)]. *)
Theorem regime_default_when_uncomputable (p : provider) :
  regime_uncomputable libm_log p = true ->
  _get_daily_regime libm_log grangercausalitytests p = Ok (false, F64.one).
Proof.
  unfold regime_uncomputable. intros Hu. rewrite daily_regime_eq.
  destruct (daily_closes p) as [daily|e] eqn:Hd.
  - apply Nat.ltb_lt in Hu. now rewrite (latest_score_length p daily Hd Hu).
  - unfold latest_score. now rewrite Hd.
Qed.


End DailyRegime.


(** 91 daily rows give 90 returns, one short of a first window: the
    default. *)
Lemma regime_default_when_uncomputable_witness :
  regime_uncomputable Sample.log_double
    (Provider (Ok (Sample.rising 91)) (Ok Sample.bars_up)
       (Ok Sample.two_days)) = true /\
  _get_daily_regime Sample.log_double
    (Sample.granger_const Sample.c_0_5 Sample.c_0_05)
    (Provider (Ok (Sample.rising 91)) (Ok Sample.bars_up)
       (Ok Sample.two_days))
    = Ok (false, F64.one).
Proof.
  split; [vm_compute; reflexivity|].
  apply regime_default_when_uncomputable. vm_compute. reflexivity.
Defined.

(** ** The decision table under a change of sign *)

Lemma SFopp_involutive (x : float64) : SFopp (SFopp x) = x.
Proof.
  destruct x as [s|s| |s m e]; cbn [SFopp]; now rewrite ?negb_involutive.
Qed.

(** Comparing the opposites is comparing the other way round. *)
Lemma SFcompare_opp (x y : float64) :
  SFcompare (SFopp x) (SFopp y) = SFcompare y x.
Proof.
  destruct x as [[]|[]| |[] m1 e1], y as [[]|[]| |[] m2 e2];
    cbn [SFcompare SFopp negb]; try reflexivity;
    change (Pos.compare_cont Eq m2 m1) with (Pos.compare m2 m1);
    change (Pos.compare_cont Eq m1 m2) with (Pos.compare m1 m2);
    rewrite (Z.compare_antisym e1 e2), (Pos.compare_antisym m1 m2);
    destruct (e1 ?= e2); destruct (m1 ?= m2)%positive; reflexivity.
Qed.

Lemma lt_neg_neg (x y : float64) :
  F64.lt (F64.neg x) (F64.neg y) = F64.gt x y.
Proof. unfold F64.lt, F64.gt, F64.neg, SFltb. now rewrite SFcompare_opp. Qed.

Lemma gt_neg (x y : float64) :
  F64.gt (F64.neg x) y = F64.lt x (F64.neg y).
Proof.
  unfold F64.lt, F64.gt, F64.neg, SFltb.
  rewrite <- (SFopp_involutive y) at 1. now rewrite SFcompare_opp.
Qed.

(** The table is symmetric: in an active or an inactive regime alike, the
    opposite change gets LONG exactly when the change gets SHORT, and
    SHORT exactly when the change gets LONG. *)
Theorem signal_logic_symmetric (regime_active : bool) (change : float64) :
  (fst (fst (signal_logic regime_active (F64.neg change))) = "LONG BTC" <->
   fst (fst (signal_logic regime_active change)) = "SHORT BTC") /\
  (fst (fst (signal_logic regime_active (F64.neg change))) = "SHORT BTC" <->
   fst (fst (signal_logic regime_active change)) = "LONG BTC").
Proof.
  destruct regime_active;
    [|rewrite !signal_logic_inactive; cbn [fst]; split; split; discriminate].
  pose proof (gt_neg change F64.c_0_0015) as Hup.
  pose proof (lt_neg_neg change F64.c_0_0015) as Hdown.
  destruct (F64.gt change F64.c_0_0015) eqn:Hg.
  - assert (Hl : F64.lt change (F64.neg F64.c_0_0015) = false).
    { destruct (F64.lt change (F64.neg F64.c_0_0015)) eqn:Hl; [|reflexivity].
      now rewrite (down_not_up _ Hl) in Hg. }
    rewrite Hl in Hup.
    rewrite (signal_logic_up _ Hg), (signal_logic_down _ Hdown).
    cbn [fst]. split; split; (discriminate || reflexivity).
  - destruct (F64.lt change (F64.neg F64.c_0_0015)) eqn:Hl.
    + rewrite (signal_logic_down _ Hl), (signal_logic_up _ Hup).
      cbn [fst]. split; split; (discriminate || reflexivity).
    + rewrite (signal_logic_small _ Hg Hl), (signal_logic_small _ Hup Hdown).
      cbn [fst]. split; split; discriminate.
Qed.

(** ** More on the rolling scan: what a score depends on *)

Lemma window_app (returns extra : frame) (i : nat) :
  (i <= length returns)%nat ->
  window (returns ++ extra) i = window returns i.
Proof.
  intros Hi. unfold window, iloc_slice. now rewrite take_app_le.
Qed.

Section ScanDependencies.

Variable libm_log : float64 -> float64.
Variable grangercausalitytests :
  list (float64 * float64) -> Z -> outcome (gmap Z lag_result).

(** No look-ahead. Scanning a series extended by new rows gives the
    scores and the dates of the scan of the series, followed by those of
    the new indices: earlier scores never change when data arrive. *)
Theorem rolling_scan_append (returns extra : frame) :
  exists pvals dates pvals' dates',
    rolling_scan grangercausalitytests returns = Ok (pvals, dates) /\
    rolling_scan grangercausalitytests (returns ++ extra)
      = Ok (pvals ++ pvals', dates ++ dates') /\
    length pvals' =
      ((length returns + length extra - 90) - (length returns - 90))%nat /\
    length dates' = length pvals'.
Proof.
  rewrite !rolling_scan_eq.
  set (n := length returns). set (k := length extra).
  assert (Hlen : length (returns ++ extra) = (n + k)%nat)
    by (rewrite length_app; reflexivity).
  rewrite Hlen.
  replace (n + k - 90)%nat with ((n - 90) + ((n + k - 90) - (n - 90)))%nat
    by lia.
  rewrite seq_app, map_app, drop_app, map_app. fold n.
  assert (Hsame :
    map (fun i => window_score grangercausalitytests
                    (window (returns ++ extra) i)) (seq 90 (n - 90)) =
    map (fun i => window_score grangercausalitytests (window returns i))
        (seq 90 (n - 90))).
  { apply map_ext_in. intros i Hi. apply in_seq in Hi.
    rewrite window_app by (fold n; lia). reflexivity. }
  rewrite Hsame.
  eexists _, _, _, _. split; [reflexivity|]. split; [reflexivity|]. split.
  - rewrite length_map, length_seq. lia.
  - rewrite !length_map, length_seq, length_drop. fold k. lia.
Qed.

(** The most recent score is the score of the last window: the 90 rows
    that precede the last row of the series. *)
Lemma latest_score_last_window (p : provider) (daily : frame) :
  daily_closes p = Ok daily ->
  (91 <= length (log_returns libm_log daily))%nat ->
  latest_score libm_log grangercausalitytests p =
    Some (window_score grangercausalitytests
            (window (log_returns libm_log daily)
                    (length (log_returns libm_log daily) - 1))).
Proof.
  intros Hd Hlen. unfold latest_score. rewrite Hd, rolling_scan_eq.
  set (returns := log_returns libm_log daily) in *.
  rewrite last_lookup, length_map, length_seq.
  replace (Init.Nat.pred (length returns - 90))
    with (length returns - 1 - 90)%nat by lia.
  apply scores_lookup. lia.
Qed.

Lemma window_values (returns : frame) (i : nat) :
  values (window returns i) =
    iloc_slice (values returns) (i - 90) i.
Proof.
  unfold window, iloc_slice, values.
  now rewrite fmap_drop, fmap_take.
Qed.

(** The regime depends on the values of the last window only. Two daily
    frames whose return series carry the same pairs of values in the 90
    rows before their last row give the same regime and p-value, whatever
    their older rows, their dates and their last row. *)
Theorem regime_depends_on_last_window (p1 p2 : provider) (d1 d2 : frame) :
  daily_closes p1 = Ok d1 -> daily_closes p2 = Ok d2 ->
  (91 <= length (log_returns libm_log d1))%nat ->
  (91 <= length (log_returns libm_log d2))%nat ->
  take 90 (drop (length (log_returns libm_log d1) - 91)
             (values (log_returns libm_log d1))) =
  take 90 (drop (length (log_returns libm_log d2) - 91)
             (values (log_returns libm_log d2))) ->
  _get_daily_regime libm_log grangercausalitytests p1 =
  _get_daily_regime libm_log grangercausalitytests p2.
Proof.
  intros H1 H2 Hl1 Hl2 Hsame.
  rewrite !daily_regime_eq.
  rewrite (latest_score_last_window p1 d1 H1 Hl1),
          (latest_score_last_window p2 d2 H2 Hl2).
  set (r1 := log_returns libm_log d1) in *.
  set (r2 := log_returns libm_log d2) in *.
  assert (Hw : forall r : frame, (91 <= length r)%nat ->
            values (window r (length r - 1)) =
            take 90 (drop (length r - 91) (values r))).
  { intros r Hr. rewrite window_values. unfold iloc_slice.
    replace (length r - 1 - 90)%nat with (length r - 91)%nat by lia.
    rewrite take_drop_commute. do 2 f_equal. lia. }
  assert (Hscore :
    window_score grangercausalitytests (window r1 (length r1 - 1)) =
    window_score grangercausalitytests (window r2 (length r2 - 1))).
  { unfold window_score. now rewrite (Hw r1 Hl1), (Hw r2 Hl2), Hsame. }
  now rewrite Hscore.
Qed.

(** A test that raises on the most recent window makes the engine
    answer as if it had no data at all: inactive, p-value 1.0. *)
Theorem failed_last_window_gives_default (p : provider) (daily : frame) :
  daily_closes p = Ok daily ->
  (91 <= length (log_returns libm_log daily))%nat ->
  raised (grangercausalitytests
            (values (window (log_returns libm_log daily)
                       (length (log_returns libm_log daily) - 1))) 2)
    = true ->
  _get_daily_regime libm_log grangercausalitytests p = Ok (false, F64.one).
Proof.
  intros Hd Hlen Hfail.
  rewrite daily_regime_eq, (latest_score_last_window p daily Hd Hlen).
  destruct (grangercausalitytests _ 2) as [res|e] eqn:Hg; [discriminate|].
  rewrite (window_score_raise _ _ _ Hg). reflexivity.
Qed.

(** Missing keys. When the test returns a result without an entry for
    lag 2, or whose lag-2 entry has no ['ssr_ftest'] test, or whose
    ['ssr_ftest'] tuple has fewer than two components, the [KeyError] or
    [IndexError] is swallowed and the score of the window is 1.0. *)
Theorem window_score_missing_key (subset : frame) (res : gmap Z lag_result) :
  grangercausalitytests (values subset) 2 = Ok res ->
  res !! 2 = None \/
  (exists tests fits, res !! 2 = Some (tests, fits) /\
     (tests !! "ssr_ftest" = None \/
      exists ftest, tests !! "ssr_ftest" = Some ftest /\
                    (length ftest < 2)%nat)) ->
  window_score grangercausalitytests subset = F64.one.
Proof.
  intros Hg Hmiss. rewrite (window_score_Ok _ _ _ Hg). unfold lag2_pvalue.
  destruct Hmiss as [H2|(tests & fits & H2 & [Hf|(ftest & Hf & Hlen)])];
    rewrite H2; cbn [mbind option_bind fst]; try reflexivity;
    rewrite Hf; cbn [mbind option_bind]; try reflexivity.
  now rewrite lookup_ge_None_2 by lia.
Qed.

End ScanDependencies.

(** Two frames of 93 days that differ on the last day only: the same
    regime. *)
Lemma regime_depends_on_last_window_witness :
  _get_daily_regime Sample.log_double
    (Sample.granger_failing_at (F64.of_Z 5) Sample.c_0_5 Sample.c_0_05)
    (Provider (Ok MoreSample.daily_93) (Ok Sample.bars_up)
       (Ok Sample.two_days)) =
  _get_daily_regime Sample.log_double
    (Sample.granger_failing_at (F64.of_Z 5) Sample.c_0_5 Sample.c_0_05)
    (Provider (Ok MoreSample.daily_93_other_last) (Ok Sample.bars_up)
       (Ok Sample.two_days)).
Proof.
  apply (regime_depends_on_last_window Sample.log_double
           (Sample.granger_failing_at (F64.of_Z 5) Sample.c_0_5 Sample.c_0_05)
           (Provider (Ok MoreSample.daily_93) (Ok Sample.bars_up)
              (Ok Sample.two_days))
           (Provider (Ok MoreSample.daily_93_other_last) (Ok Sample.bars_up)
              (Ok Sample.two_days))
           MoreSample.daily_93 MoreSample.daily_93_other_last
           eq_refl eq_refl).
  - vm_compute. lia.
  - vm_compute. lia.
  - vm_compute. reflexivity.
Defined.

(** The sample world with a test that raises on the only window. *)
Lemma failed_last_window_gives_default_witness :
  _get_daily_regime Sample.log_double
    (Sample.granger_failing_at (F64.of_Z 1) Sample.c_0_5 Sample.c_0_05)
    Sample.world_up = Ok (false, F64.one).
Proof.
  apply (failed_last_window_gives_default Sample.log_double
           (Sample.granger_failing_at (F64.of_Z 1) Sample.c_0_5 Sample.c_0_05)
           Sample.world_up (Sample.rising 92) eq_refl).
  - vm_compute. lia.
  - vm_compute. reflexivity.
Defined.

(** A result with the lag-1 entry only. *)
Lemma window_score_missing_key_witness :
  window_score (MoreSample.granger_lag1_only Sample.c_0_05)
    (window (Sample.rising 92) 90) = F64.one.
Proof.
  apply (window_score_missing_key
           (MoreSample.granger_lag1_only Sample.c_0_05)
           (window (Sample.rising 92) 90)
           {[ 1 := (Sample.tests_of Sample.c_0_05, []) ]} eq_refl).
  left. vm_compute. reflexivity.
Defined.

(** ** More on the return series: dates and length *)

(** Rounding a non-negative mantissa never gives NaN, and gives the sign
    asked for. *)
Lemma shr_record_of_loc_m (m : Z) (l : location) :
  shr_m (shr_record_of_loc m l) = m.
Proof. now destruct l as [|[| |]]. Qed.

Lemma shr_nonneg (mrs : shr_record) (e n : Z) :
  0 <= shr_m mrs -> 0 <= shr_m (fst (shr mrs e n)).
Proof.
  intros Hm. destruct n as [|p|p]; cbn [shr fst]; try exact Hm.
  rewrite iter_pos_shr_1_m by exact Hm. apply Z.div_pos; lia.
Qed.

Lemma binary_round_aux_sign (sx : bool) (mx ex : Z) (lx : location) :
  0 <= mx ->
  match binary_round_aux 53 1024 sx mx ex lx with
  | S754_nan => False
  | S754_zero s | S754_infinity s | S754_finite s _ _ => s = sx
  end.
Proof.
  intros Hm. unfold binary_round_aux, shr_fexp.
  set (n1 := fexp 53 1024 (Zdigits2 mx + ex) - ex).
  pose proof (shr_nonneg (shr_record_of_loc mx lx) ex n1) as H1.
  rewrite shr_record_of_loc_m in H1. specialize (H1 Hm).
  destruct (shr (shr_record_of_loc mx lx) ex n1) as [mrs' e'].
  cbn [fst] in H1.
  set (m2 := round_nearest_even (shr_m mrs') (loc_of_shr_record mrs')).
  assert (H2 : 0 <= m2).
  { subst m2.
    destruct (round_nearest_even_cases (shr_m mrs') (loc_of_shr_record mrs'))
      as [-> | ->]; lia. }
  set (n2 := fexp 53 1024 (Zdigits2 m2 + e') - e').
  pose proof (shr_nonneg (shr_record_of_loc m2 loc_Exact) e' n2) as H3.
  rewrite shr_record_of_loc_m in H3. specialize (H3 H2).
  destruct (shr (shr_record_of_loc m2 loc_Exact) e' n2) as [mrs'' e''].
  cbn [fst] in H3.
  destruct (shr_m mrs'') as [|m|m]; [reflexivity| |lia].
  now destruct (e'' <=? 1024 - 53).
Qed.

(** The quotient of two positive finite numbers is a non-negative number
    (possibly 0 or infinite), never NaN. *)
Lemma div_positive_finite (x y : float64) :
  positive_finite x = true -> positive_finite y = true ->
  match F64.div x y with
  | S754_nan => False
  | S754_zero s | S754_infinity s | S754_finite s _ _ => s = false
  end.
Proof.
  destruct x as [| | |[] mx ex]; try discriminate.
  destruct y as [| | |[] my ey]; try discriminate. intros _ _.
  unfold F64.div, SFdiv, SFdiv_core_binary.
  set (m' := match _ - _ - _ with
             | Z0 => Zpos mx | Zpos _ => _ | Zneg _ => 0
             end).
  assert (Hm' : 0 <= m').
  { subst m'. destruct (_ - _ - _) as [|p|p]; try lia.
    rewrite Z.shiftl_mul_pow2 by lia.
    apply Z.mul_nonneg_nonneg; [lia|]. apply Z.pow_nonneg. lia. }
  pose proof (Z.div_pos m' (Zpos my) Hm' ltac:(lia)) as Hq.
  unfold Z.div in Hq.
  destruct (Z.div_eucl m' (Zpos my)) as [q r]. cbn [fst] in Hq.
  cbn [xorb]. now apply binary_round_aux_sign.
Qed.

Lemma zip_with_cons {A B C} (f : A -> B -> C) (x : A) (y : B)
    (l : list A) (k : list B) :
  zip_with f (x :: l) (y :: k) = f x y :: zip_with f l k.
Proof. reflexivity. Qed.

Lemma StronglySorted_sublist {A} (R : A -> A -> Prop) (l1 l2 : list A) :
  l1 `sublist_of` l2 -> StronglySorted R l2 -> StronglySorted R l1.
Proof.
  induction 1 as [|x l1 l2 Hsub IH|x l1 l2 Hsub IH]; intros Hs.
  - constructor.
  - apply StronglySorted_cons in Hs as [Hall Hs].
    apply StronglySorted_cons. split; [|now apply IH].
    apply Forall_forall. intros y Hy.
    rewrite Forall_forall in Hall. apply Hall.
    exact (elem_of_sublist _ _ _ Hy Hsub).
  - apply StronglySorted_cons in Hs as [_ Hs]. now apply IH.
Qed.

Section ReturnSeriesShape.

Variable libm_log : float64 -> float64.

(** The rows of the return series, before [dropna], for a frame that
    starts with [r0]: a first row of NaN, then one row per later day,
    with the date of that day and the ratios to the day before. *)
Lemma log_ratio_rows (r0 : row) (rest : frame) :
  exists first others,
    frame_log libm_log (frame_div (r0 :: rest) (shift1 (r0 :: rest)))
      = first :: others /\
    row_has_nan first = true /\
    others =
      zip_with (fun cur prev =>
                  Row (date cur)
                      (np_log libm_log (F64.div (btc cur) (btc prev)))
                      (np_log libm_log (F64.div (tsla cur) (tsla prev))))
               rest (r0 :: rest).
Proof.
  eexists _, _. unfold shift1, frame_div. rewrite zip_with_cons.
  unfold frame_log. rewrite map_cons. split; [reflexivity|]. split.
  - unfold row_has_nan. cbn [btc]. now destruct (btc r0).
  - generalize (r0 :: rest) as before. clear r0.
    induction rest as [|cur rest IH]; intros before; [reflexivity|].
    destruct before as [|prev before]; [reflexivity|].
    rewrite !zip_with_cons, map_cons, IH. reflexivity.
Qed.

Lemma zip_with_dates (rest before : frame) :
  (length rest <= length before)%nat ->
  map date
    (zip_with (fun cur prev =>
                 Row (date cur)
                     (np_log libm_log (F64.div (btc cur) (btc prev)))
                     (np_log libm_log (F64.div (tsla cur) (tsla prev))))
              rest before) = map date rest.
Proof.
  revert before. induction rest as [|cur rest IH]; intros before Hlen;
    [reflexivity|].
  destruct before as [|prev before]; [cbn in Hlen; lia|].
  rewrite zip_with_cons, !map_cons, IH by (cbn in Hlen; lia). reflexivity.
Qed.

(** The dates of the return series are dates of the price frame, the
    first one apart, in the same order; so they are strictly increasing
    when those of the price frame are. *)
Theorem log_returns_dates (daily : frame) :
  map date (log_returns libm_log daily) `sublist_of` drop 1 (map date daily) /\
  (StronglySorted Z.lt (map date daily) ->
   StronglySorted Z.lt (map date (log_returns libm_log daily))).
Proof.
  assert (Hsub : map date (log_returns libm_log daily)
                   `sublist_of` drop 1 (map date daily)).
  { unfold log_returns, dropna. destruct daily as [|r0 rest]; [constructor|].
    destruct (log_ratio_rows r0 rest) as (first & others & -> & Hnan & ->).
    rewrite filter_cons_False by (rewrite Hnan; discriminate).
    cbn [map drop]. change (drop 0 ?l) with l.
    rewrite <- (zip_with_dates rest (r0 :: rest)) by (cbn; lia).
    apply fmap_sublist, sublist_filter. }
  split; [exact Hsub|]. intros Hsorted.
  apply (StronglySorted_sublist _ _ _ Hsub).
  now apply StronglySorted_drop.
Qed.

(** With positive finite closes, and a logarithm that is never NaN on a
    positive finite number, no row is dropped but the first: the return
    series has exactly [len - 1] rows, dated as the price rows from the
    second one on. *)
Theorem log_returns_full (daily : frame) :
  all_prices_positive daily = true ->
  (forall x, positive_finite x = true -> F64.is_nan (libm_log x) = false) ->
  length (log_returns libm_log daily) = (length daily - 1)%nat /\
  map date (log_returns libm_log daily) = drop 1 (map date daily).
Proof.
  intros Hpos Hlog.
  assert (Hln : forall x y, positive_finite x = true ->
                  positive_finite y = true ->
                  F64.is_nan (np_log libm_log (F64.div x y)) = false).
  { intros x y Hx Hy. pose proof (div_positive_finite x y Hx Hy) as Hd.
    destruct (F64.div x y) as [s|s| |s m e]; try contradiction; subst s;
      try reflexivity. now apply Hlog. }
  unfold log_returns, dropna. destruct daily as [|r0 rest]; [now split|].
  destruct (log_ratio_rows r0 rest) as (first & others & -> & Hnan & ->).
  rewrite filter_cons_False by (rewrite Hnan; discriminate).
  set (others := zip_with _ rest (r0 :: rest)).
  assert (Hall : Forall (fun r => row_has_nan r = false) others).
  { apply Forall_forall. intros r Hr.
    apply elem_of_zip_with in Hr as (cur & prev & -> & Hcur & Hprev).
    unfold all_prices_positive in Hpos. rewrite forallb_forall in Hpos.
    assert (Hc := Hpos cur ltac:(apply list_elem_of_In; now right)).
    assert (Hp := Hpos prev ltac:(now apply list_elem_of_In)).
    apply andb_true_iff in Hc as [Hc1 Hc2].
    apply andb_true_iff in Hp as [Hp1 Hp2].
    unfold row_has_nan. cbn [btc tsla].
    now rewrite (Hln _ _ Hc1 Hp1), (Hln _ _ Hc2 Hp2). }
  assert (Hfilter : filter (fun r => row_has_nan r = false) others = others).
  { clear -Hall. induction Hall as [|r l Hr Hl IH]; [reflexivity|].
    now rewrite filter_cons_True, IH. }
  rewrite Hfilter. subst others. split.
  - rewrite length_zip_with. cbn [length]. lia.
  - cbn [map drop]. change (drop 0 ?l) with l.
    apply zip_with_dates. cbn. lia.
Qed.

End ReturnSeriesShape.

(** The stand-in logarithm is never NaN on a positive finite number. *)
Lemma log_double_not_nan (x : float64) :
  positive_finite x = true -> F64.is_nan (Sample.log_double x) = false.
Proof.
  destruct x as [| | |[] m e]; try discriminate. intros _.
  unfold Sample.log_double, F64.sub, F64.one, SFsub, F64.prec, F64.emax.
  set (z := _ - _). unfold binary_normalize.
  destruct z as [|p|p]; [reflexivity| |]; unfold binary_round;
    destruct (shl_align _ _ _) as [mz ez];
    match goal with |- context [binary_round_aux 53 1024 ?s ?a ?b ?c] =>
      pose proof (binary_round_aux_sign s a b c ltac:(lia)) as H;
      destruct (binary_round_aux 53 1024 s a b c)
    end; try reflexivity; contradiction.
Qed.

(** 92 rising days: 91 returns, dated 1 to 91. *)
Lemma log_returns_full_witness :
  length (log_returns Sample.log_double (Sample.rising 92)) = 91%nat /\
  map date (log_returns Sample.log_double (Sample.rising 92)) =
    drop 1 (map date (Sample.rising 92)).
Proof.
  apply (log_returns_full Sample.log_double (Sample.rising 92)).
  - vm_compute. reflexivity.
  - exact log_double_not_nan.
Defined.

(** ** More on the live signal: converse of the table, edge cases *)

Section LiveSignalEdges.

Variable libm_log : float64 -> float64.
Variable grangercausalitytests :
  list (float64 * float64) -> Z -> outcome (gmap Z lag_result).

(** Every returned signal is built from a regime and a snapshot. *)
Lemma live_signal_inv (p : provider) (now : string) (cache : cache_t)
    (s : signal_dict) (cache' : cache_t) :
  get_live_signal libm_log grangercausalitytests p now cache
    = Ok (s, cache') ->
  exists active pv b t change,
    _get_daily_regime libm_log grangercausalitytests p = Ok (active, pv) /\
    price_snapshot p = Ok (b, t, change) /\
    s = SignalDict (fst (fst (signal_logic active change)))
                   (snd (fst (signal_logic active change)))
                   (snd (signal_logic active change))
                   (if active then "ACTIVE" else "INACTIVE")
                   pv change b t now.
Proof.
  intros Hlive.
  destruct (daily_regime_returns libm_log grangercausalitytests p)
    as (active & pv & Hr).
  destruct (price_snapshot p) as [[[b t] change]|e] eqn:Hs.
  - rewrite (live_signal_eq _ _ p now cache _ _ _ _ _ Hr Hs) in Hlive.
    injection Hlive as <- _. now exists active, pv, b, t, change.
  - now rewrite (live_signal_raise _ _ p now cache e Hs) in Hlive.
Qed.

(** The table read backwards. A returned signal is one of the three
    strings; LONG is returned only in an active regime with a change
    above 0.0015, SHORT only in an active regime with a change below
    -0.0015, and the colour is the one of the signal. *)
Theorem signal_only_when (p : provider) (now : string) (cache : cache_t)
    (s : signal_dict) (cache' : cache_t) :
  get_live_signal libm_log grangercausalitytests p now cache
    = Ok (s, cache') ->
  (signal s = "LONG BTC" \/ signal s = "SHORT BTC" \/ signal s = "FLAT") /\
  (signal s = "LONG BTC" ->
     regime s = "ACTIVE" /\ color s = "#00ff41" /\
     F64.gt (tsla_change s) F64.c_0_0015 = true) /\
  (signal s = "SHORT BTC" ->
     regime s = "ACTIVE" /\ color s = "#ff4444" /\
     F64.lt (tsla_change s) (F64.neg F64.c_0_0015) = true) /\
  (signal s = "FLAT" ->
     color s = "#888888" /\
     (regime s = "INACTIVE" \/
      F64.gt (tsla_change s) F64.c_0_0015 = false /\
      F64.lt (tsla_change s) (F64.neg F64.c_0_0015) = false)).
Proof.
  intros Hlive.
  destruct (live_signal_inv p now cache s cache' Hlive)
    as (active & pv & b & t & change & _ & _ & ->).
  cbn [signal color regime tsla_change].
  destruct active.
  - destruct (F64.gt change F64.c_0_0015) eqn:Hup.
    + rewrite (signal_logic_up _ Hup). cbn [fst snd].
      repeat split; auto; discriminate.
    + destruct (F64.lt change (F64.neg F64.c_0_0015)) eqn:Hdown.
      * rewrite (signal_logic_down _ Hdown). cbn [fst snd].
        repeat split; auto; discriminate.
      * rewrite (signal_logic_small _ Hup Hdown). cbn [fst snd].
        repeat split; auto; discriminate.
  - rewrite signal_logic_inactive. cbn [fst snd].
    repeat split; auto; discriminate.
Qed.

(** The snapshot read from the last two complete 5-minute rows. *)
Lemma snapshot_of_last_two (p : provider) (close older : frame)
    (prev cur : row) :
  intraday_closes p = Ok close ->
  dropna close = older ++ [prev; cur] ->
  price_snapshot p =
    Ok (btc cur, tsla cur,
        F64.sub (F64.div (tsla cur) (tsla prev)) F64.one).
Proof.
  intros Hc Hrows. unfold price_snapshot, intraday_snapshot.
  rewrite Hc. cbn [mbind outcome_bind]. rewrite Hrows.
  replace (length (older ++ [prev; cur]) <? 2)%nat with false
    by (symmetry; apply Nat.ltb_ge; rewrite length_app; cbn; lia).
  rewrite reverse_app. reflexivity.
Qed.

(** Division by zero raises nothing. In an active regime, when the
    previous TSLA close is 0.0, a positive current close gives an
    infinite change and the signal LONG; a current close of 0.0 gives a
    NaN change and the signal FLAT. *)
Theorem zero_previous_close (p : provider) (now : string) (cache : cache_t)
    (close older : frame) (prev cur : row) (pv : float64) :
  _get_daily_regime libm_log grangercausalitytests p = Ok (true, pv) ->
  intraday_closes p = Ok close ->
  dropna close = older ++ [prev; cur] ->
  tsla prev = F64.zero ->
  exists s cache',
    get_live_signal libm_log grangercausalitytests p now cache
      = Ok (s, cache') /\
    (positive_finite (tsla cur) = true ->
       tsla_change s = F64.inf /\ signal s = "LONG BTC") /\
    (tsla cur = F64.zero ->
       tsla_change s = F64.nan /\ signal s = "FLAT" /\
       reason s = "TSLA movement below threshold").
Proof.
  intros Hr Hc Hrows Hzero.
  pose proof (snapshot_of_last_two p close older prev cur Hc Hrows) as Hs.
  rewrite Hzero in Hs.
  eexists _, _.
  split; [exact (live_signal_eq _ _ p now cache _ _ _ _ _ Hr Hs)|].
  cbn [tsla_change signal reason]. split.
  - intros Hpos. destruct (tsla cur) as [| | |[] m e]; try discriminate.
    split; reflexivity.
  - intros ->. repeat split; reflexivity.
Qed.

(** The regime when no score can be produced. *)
Lemma regime_default_eq (p : provider) :
  regime_uncomputable libm_log p = true ->
  _get_daily_regime libm_log grangercausalitytests p = Ok (false, F64.one).
Proof.
  unfold regime_uncomputable. intros Hu. rewrite daily_regime_eq.
  destruct (daily_closes p) as [daily|e] eqn:Hd.
  - apply Nat.ltb_lt in Hu.
    now rewrite (latest_score_length _ _ p daily Hd Hu).
  - unfold latest_score. now rewrite Hd.
Qed.

(** Without daily data the dashboard shows FLAT: when the daily request
    fails or gives fewer than 91 returns, and the prices can be read, the
    signal is FLAT, "Regime inactive", INACTIVE, with a p-value of 1.0,
    whatever the change. *)
Theorem no_daily_data_gives_flat (p : provider) (now : string)
    (cache : cache_t) (b t change : float64) :
  regime_uncomputable libm_log p = true ->
  price_snapshot p = Ok (b, t, change) ->
  get_live_signal libm_log grangercausalitytests p now cache =
    Ok (SignalDict "FLAT" "#888888" "Regime inactive" "INACTIVE"
          F64.one change b t now,
        Cache (Some now)).
Proof.
  intros Hu Hs.
  exact (live_signal_eq _ _ p now cache _ _ _ _ _ (regime_default_eq p Hu) Hs).
Qed.

(** The 2-day request is a fallback only: when two complete 5-minute rows
    are there, its answer, whatever it is, changes nothing. *)
Theorem fallback_unused_when_bars_usable (p : provider)
    (recent' : outcome frame) (now : string) (cache : cache_t) :
  intraday_unavailable p = false ->
  get_live_signal libm_log grangercausalitytests
    (Provider (daily_closes p) (intraday_closes p) recent') now cache =
  get_live_signal libm_log grangercausalitytests p now cache.
Proof.
  unfold intraday_unavailable. intros Hbars.
  destruct (intraday_closes p) as [close|e] eqn:Hc; [|discriminate].
  apply Nat.ltb_ge in Hbars.
  assert (Hsnap : forall q, intraday_closes q = Ok close ->
            exists v, price_snapshot q = Ok v /\
                      forall q', intraday_closes q' = Ok close ->
                                 price_snapshot q' = Ok v).
  { intros q Hq.
    assert (Hlen : (length (reverse (dropna close)) >= 2)%nat)
      by (rewrite length_reverse; lia).
    destruct (reverse (dropna close)) as [|cur [|prev older]] eqn:Hrev;
      try (cbn in Hlen; lia).
    eexists. split.
    - unfold price_snapshot, intraday_snapshot. rewrite Hq.
      cbn [mbind outcome_bind].
      replace (length (dropna close) <? 2)%nat with false
        by (symmetry; apply Nat.ltb_ge; lia).
      rewrite Hrev. reflexivity.
    - intros q' Hq'. unfold price_snapshot, intraday_snapshot. rewrite Hq'.
      cbn [mbind outcome_bind].
      replace (length (dropna close) <? 2)%nat with false
        by (symmetry; apply Nat.ltb_ge; lia).
      rewrite Hrev. reflexivity. }
  destruct (Hsnap p Hc) as ([[b t] change] & Hp & Hothers).
  destruct (daily_regime_returns libm_log grangercausalitytests p)
    as (active & pv & Hr).
  rewrite (live_signal_eq _ _ p now cache _ _ _ _ _ Hr Hp).
  apply live_signal_eq; [exact Hr | now apply Hothers].
Qed.

End LiveSignalEdges.

(** The sample world in which the first of the two bars has a TSLA close
    of 0.0: an infinite change, LONG. *)
Lemma zero_previous_close_witness :
  exists s cache',
    get_live_signal Sample.log_double
      (Sample.granger_const Sample.c_0_5 Sample.c_0_05)
      MoreSample.world_from_zero "2025-06-02 14:35:00 UTC" (Cache None)
      = Ok (s, cache') /\
    tsla_change s = F64.inf /\ signal s = "LONG BTC".
Proof.
  destruct (zero_previous_close Sample.log_double
              (Sample.granger_const Sample.c_0_5 Sample.c_0_05)
              MoreSample.world_from_zero "2025-06-02 14:35:00 UTC"
              (Cache None) MoreSample.bars_from_zero []
              (Row 0 (F64.of_Z 60000) F64.zero)
              (Row 300 (F64.of_Z 60010) (F64.of_Z 10016))
              Sample.c_0_05)
    as (s & c & Hlive & Hpos & _).
  - vm_compute. reflexivity.
  - reflexivity.
  - reflexivity.
  - reflexivity.
  - exists s, c. split; [exact Hlive|]. apply Hpos. reflexivity.
Defined.

(** The sample world: LONG, hence an active regime and a green signal. *)
Lemma signal_only_when_witness :
  get_live_signal Sample.log_double
    (Sample.granger_const Sample.c_0_5 Sample.c_0_05)
    Sample.world_up "2025-06-02 14:35:00 UTC" (Cache None) =
  Ok (SignalDict "LONG BTC" "#00ff41" "TSLA strongly up" "ACTIVE"
        Sample.c_0_05
        (F64.sub (F64.div (F64.of_Z 10016) (F64.of_Z 10000)) F64.one)
        (F64.of_Z 60010) (F64.of_Z 10016) "2025-06-02 14:35:00 UTC",
      Cache (Some "2025-06-02 14:35:00 UTC")) /\
  F64.gt (F64.sub (F64.div (F64.of_Z 10016) (F64.of_Z 10000)) F64.one)
         F64.c_0_0015 = true.
Proof.
  assert (Hrun :
    get_live_signal Sample.log_double
      (Sample.granger_const Sample.c_0_5 Sample.c_0_05)
      Sample.world_up "2025-06-02 14:35:00 UTC" (Cache None) =
    Ok (SignalDict "LONG BTC" "#00ff41" "TSLA strongly up" "ACTIVE"
          Sample.c_0_05
          (F64.sub (F64.div (F64.of_Z 10016) (F64.of_Z 10000)) F64.one)
          (F64.of_Z 60010) (F64.of_Z 10016) "2025-06-02 14:35:00 UTC",
        Cache (Some "2025-06-02 14:35:00 UTC")))
    by (vm_compute; reflexivity).
  split; [exact Hrun|].
  exact (proj2 (proj2 (proj1 (proj2
           (signal_only_when Sample.log_double
              (Sample.granger_const Sample.c_0_5 Sample.c_0_05)
              Sample.world_up "2025-06-02 14:35:00 UTC" (Cache None)
              _ _ Hrun)) eq_refl))).
Defined.

(** A world whose daily request fails while the bars are there. *)
Lemma no_daily_data_gives_flat_witness :
  get_live_signal Sample.log_double
    (Sample.granger_const Sample.c_0_5 Sample.c_0_05)
    MoreSample.world_no_daily "2025-06-02 14:35:00 UTC" (Cache None) =
  Ok (SignalDict "FLAT" "#888888" "Regime inactive" "INACTIVE" F64.one
        (F64.sub (F64.div (F64.of_Z 10016) (F64.of_Z 10000)) F64.one)
        (F64.of_Z 60010) (F64.of_Z 10016) "2025-06-02 14:35:00 UTC",
      Cache (Some "2025-06-02 14:35:00 UTC")).
Proof.
  apply (no_daily_data_gives_flat Sample.log_double
           (Sample.granger_const Sample.c_0_5 Sample.c_0_05)
           MoreSample.world_no_daily).
  - reflexivity.
  - vm_compute. reflexivity.
Defined.

(** The sample world with a failing 2-day request: the same signal. *)
Lemma fallback_unused_when_bars_usable_witness :
  get_live_signal Sample.log_double
    (Sample.granger_const Sample.c_0_5 Sample.c_0_05)
    (Provider (daily_closes Sample.world_up) (intraday_closes Sample.world_up)
       (Raise (ProviderError "no data")))
    "2025-06-02 14:35:00 UTC" (Cache None) =
  get_live_signal Sample.log_double
    (Sample.granger_const Sample.c_0_5 Sample.c_0_05)
    Sample.world_up "2025-06-02 14:35:00 UTC" (Cache None).
Proof.
  apply (fallback_unused_when_bars_usable Sample.log_double
           (Sample.granger_const Sample.c_0_5 Sample.c_0_05)
           Sample.world_up).
  reflexivity.
Defined.
